(** * mcp-server-251215: the tool handlers of [src/index.ts]

    A shallow embedding of the six tool handlers registered by
    [createServer] ([greet], [calculator], [time], [geocode],
    [get-weather], [generate-image]) and of the [server-info] resource,
    followed by the properties of the specification that concern them.

    - JavaScript numbers are IEEE 754 binary64 values ([spec_float]);
      [Number::toString] and [parseFloat] are written out.
    - Strings are byte strings holding the UTF-8 encoding of the source
      literals.
    - A handler is a computation in a small monad [M] that records the
      outgoing calls it issues and either returns a value or throws.
    - What the JavaScript runtime and the upstream services answer (the
      clock, the timezone database, HTTP replies, the inference provider)
      is a [Runtime] record the handlers are parameterised by. *)

From Stdlib Require Import String Ascii ZArith List Lia Bool.
From Stdlib Require Import Floats.SpecFloat.
From Stdlib Require Import DecimalString.
Import ListNotations.
Open Scope string_scope.
Open Scope Z_scope.

(** ** Strings *)

Definition dquote : string := String (ascii_of_nat 34) EmptyString.
Definition LF : string := String (ascii_of_nat 10) EmptyString.

(** [includes sub s]: [String.prototype.includes], [sub] occurs in [s]. *)
Fixpoint includes (sub s : string) : bool :=
  String.prefix sub s ||
  match s with
  | EmptyString => false
  | String _ s' => includes sub s'
  end.

(** The propositional reading of "the message contains [sub]". *)
Definition Contains (sub s : string) : Prop :=
  exists pre post, s = pre ++ sub ++ post.

Fixpoint repeat_string (s : string) (n : nat) : string :=
  match n with
  | O => ""
  | S n' => s ++ repeat_string s n'
  end.

(** Decimal rendering of an integer, as [${n}] renders an integral Number
    of magnitude below 1e21. *)
Definition string_of_Z (z : Z) : string := NilZero.string_of_int (Z.to_int z).

(** ** JavaScript numbers *)

Module JSNumber.

Definition number : Type := spec_float.
Definition prec : Z := 53.
Definition emax : Z := 1024.

Definition of_Z (z : Z) : number := binary_normalize prec emax z 0 false.
Definition add : number -> number -> number := SFadd prec emax.
Definition sub : number -> number -> number := SFsub prec emax.
Definition mul : number -> number -> number := SFmul prec emax.
Definition div : number -> number -> number := SFdiv prec emax.

(** [x === y] on Numbers: [+0 === -0], and [NaN] equals nothing. *)
Definition strict_equal (x y : number) : bool := SFeqb x y.

Definition zero : number := S754_zero false.
Definition NaN : number := S754_nan.

(** Compares [s * 10^t] with [x * 2^b], for [s], [x] >= 0. *)
Definition cmp_scaled (s t x b : Z) : comparison :=
  Z.compare (s * 10 ^ Z.max t 0 * 2 ^ Z.max (- b) 0)
            (x * 2 ^ Z.max b 0 * 10 ^ Z.max (- t) 0).

(** The reals that round to [m * 2^e] lie between [lo4] and [hi4] quarter
    units in the last place, bounds included when [m] is even. *)
Definition lo4 (m e : Z) : Z :=
  if (m =? 2 ^ 52) && (-1074 <? e) then 4 * m - 1 else 4 * m - 2.
Definition hi4 (m : Z) : Z := 4 * m + 2.

Definition rounds_to (m e s t : Z) : bool :=
  let closed := Z.even m in
  (match cmp_scaled s t (lo4 m e) (e - 2) with
   | Gt => true | Eq => closed | Lt => false end) &&
  (match cmp_scaled s t (hi4 m) (e - 2) with
   | Lt => true | Eq => closed | Gt => false end).

(** The [n] with [10^(n-1) <= m * 2^e < 10^n]. *)
Definition decimal_exponent (m e : Z) : Z :=
  let est := (Z.log2 m + e) * 30103 / 100000 in
  let below n := match cmp_scaled 1 n m e with Gt => true | _ => false end in
  if below (est - 1) then est - 1
  else if below est then est
  else if below (est + 1) then est + 1
  else if below (est + 2) then est + 2
  else est + 3.

(** The [k]-digit decimals next to [m * 2^e]: the one below and the one
    above, each as digits [s] and exponent [n] (value [s * 10^(n-k)]),
    with the distance to [m * 2^e] in a common unit. *)
Definition neighbours (m e n k : Z) : list (Z * Z * Z) :=
  let num := m * 2 ^ Z.max e 0 * 10 ^ Z.max (k - n) 0 in
  let den := 2 ^ Z.max (- e) 0 * 10 ^ Z.max (n - k) 0 in
  let s := num / den in
  let up := if s + 1 =? 10 ^ k then (10 ^ (k - 1), n + 1) else (s + 1, n) in
  [ (s, n, num - s * den) ; (fst up, snd up, (s + 1) * den - num) ].

(** Among the [k]-digit decimals that round to [m * 2^e], the closest
    one (the even one when two are as close). *)
Definition shortest_at (m e n k : Z) : option (Z * Z) :=
  match filter (fun c => rounds_to m e (fst (fst c)) (snd (fst c) - k))
               (neighbours m e n k) with
  | [] => None
  | [ (s, n', _) ] => Some (s, n')
  | (s1, n1, d1) :: (s2, n2, d2) :: _ =>
      if d1 <? d2 then Some (s1, n1)
      else if d2 <? d1 then Some (s2, n2)
      else if Z.even s1 then Some (s1, n1) else Some (s2, n2)
  end.

Fixpoint shortest_from (fuel : nat) (m e n k : Z) : Z * Z * Z :=
  match fuel with
  | O => (m * 2 ^ Z.max e 0 * 10 ^ Z.max (k - n) 0
            / (2 ^ Z.max (- e) 0 * 10 ^ Z.max (n - k) 0), n, k)
  | S fuel' =>
      match shortest_at m e n k with
      | Some (s, n') => (s, n', k)
      | None => shortest_from fuel' m e n (k + 1)
      end
  end.

(** Digits [s], exponent [n] and digit count [k] of Number::toString:
    [k] as small as possible. *)
Definition shortest (m e : Z) : Z * Z * Z :=
  shortest_from 17 m e (decimal_exponent m e) 1.

Definition format_digits (s n k : Z) : string :=
  let ds := string_of_Z s in
  if (k <=? n) && (n <=? 21) then
    ds ++ repeat_string "0" (Z.to_nat (n - k))
  else if (0 <? n) && (n <=? 21) then
    substring 0 (Z.to_nat n) ds ++ "." ++ substring (Z.to_nat n) (Z.to_nat (k - n)) ds
  else if (-6 <? n) && (n <=? 0) then
    "0." ++ repeat_string "0" (Z.to_nat (- n)) ++ ds
  else
    let es := (if n - 1 <? 0 then "-" else "+") ++ string_of_Z (Z.abs (n - 1)) in
    if k =? 1 then ds ++ "e" ++ es
    else substring 0 1 ds ++ "." ++ substring 1 (Z.to_nat (k - 1)) ds ++ "e" ++ es.

(** [Number::toString(x)] in radix 10: what [${x}] and [x.toString()]
    produce. *)
Definition to_string (x : number) : string :=
  match x with
  | S754_nan => "NaN"
  | S754_zero _ => "0"
  | S754_infinity false => "Infinity"
  | S754_infinity true => "-Infinity"
  | S754_finite sg m e =>
      let '(s, n, k) := shortest (Zpos m) e in
      (if sg then "-" else "") ++ format_digits s n k
  end.

(** *** [parseFloat] *)

Definition is_digit (c : ascii) : bool :=
  let a := nat_of_ascii c in ((48 <=? a) && (a <=? 57))%nat.

Definition digit_value (c : ascii) : Z := Z.of_nat (nat_of_ascii c) - 48.

(** Reads the decimal digits at the head of [s]: the value accumulated on
    [acc], how many were read, and what follows them. *)
Fixpoint read_digits (s : string) (acc cnt : Z) : Z * Z * string :=
  match s with
  | String c s' =>
      if is_digit c then read_digits s' (10 * acc + digit_value c) (cnt + 1)
      else (acc, cnt, s)
  | EmptyString => (acc, cnt, s)
  end.

(** White space and line terminators of one byte, and of three bytes in
    UTF-8 (U+1680, U+2000..U+200A, U+2028, U+2029, U+202F, U+205F, U+3000,
    U+FEFF); U+00A0 is the two bytes 194 160. *)
Definition ws1 (a : nat) : bool :=
  ((a =? 9) || (a =? 10) || (a =? 11) || (a =? 12) || (a =? 13) || (a =? 32))%nat.

Definition ws3 (a b c : nat) : bool :=
  ((a =? 225) && (b =? 154) && (c =? 128) ||
   (a =? 226) && (b =? 128) && ((128 <=? c) && (c <=? 138) || (c =? 168) || (c =? 169) || (c =? 175)) ||
   (a =? 226) && (b =? 129) && (c =? 159) ||
   (a =? 227) && (b =? 128) && (c =? 128) ||
   (a =? 239) && (b =? 187) && (c =? 191))%nat.

(** [TrimString(s, start)]. *)
Fixpoint trim_start (s : string) : string :=
  match s with
  | EmptyString => s
  | String c1 r1 =>
      let a := nat_of_ascii c1 in
      if ws1 a then trim_start r1
      else match r1 with
           | EmptyString => s
           | String c2 r2 =>
               let b := nat_of_ascii c2 in
               if ((a =? 194) && (b =? 160))%nat then trim_start r2
               else match r2 with
                    | EmptyString => s
                    | String c3 r3 =>
                        if ws3 a b (nat_of_ascii c3) then trim_start r3 else s
                    end
           end
  end.

(** The Number nearest to [d * 10^scale] (ties to even), negated when
    [neg]; [d >= 0]. *)
Definition of_decimal (neg : bool) (d scale : Z) : number :=
  if d =? 0 then S754_zero neg
  else
    let nd := Z.log2 d * 30103 / 100000 + 1 in
    if 400 <? nd + scale then S754_infinity neg
    else if nd + scale <? -400 then S754_zero neg
    else
      let p := d * 10 ^ Z.max scale 0 in
      let q := 10 ^ Z.max (- scale) 0 in
      let k := Z.max 0 (64 + Z.log2 q - Z.log2 p) in
      let m := p * 2 ^ k / q in
      let sticky := if (p * 2 ^ k) mod q =? 0 then 0 else 1 in
      let r := 2 * m + sticky in
      binary_normalize prec emax (if neg then - r else r) (- k - 1) neg.

Definition read_sign (s : string) : bool * string :=
  match s with
  | String "-" r => (true, r)
  | String "+" r => (false, r)
  | _ => (false, s)
  end.

(** The exponent part at the head of [s], 0 when there is none. *)
Definition read_exponent (s : string) : Z :=
  match s with
  | String c r =>
      if (Ascii.eqb c "e" || Ascii.eqb c "E")%char then
        let '(eneg, r1) := read_sign r in
        let '(ev, ec, _) := read_digits r1 0 0 in
        if ec =? 0 then 0 else if eneg then - ev else ev
      else 0
  | EmptyString => 0
  end.

(** [parseFloat(string)]: the longest prefix of the trimmed string that is
    a StrDecimalLiteral, as a Number; [NaN] when there is none. *)
Definition parseFloat (input : string) : number :=
  let '(neg, s1) := read_sign (trim_start input) in
  if String.prefix "Infinity" s1 then S754_infinity neg
  else
    let '(ip, ic, s2) := read_digits s1 0 0 in
    let '(fp, fc, s3) :=
      match s2 with
      | String "." r => read_digits r ip 0
      | _ => (ip, 0, s2)
      end in
    if (ic =? 0) && (fc =? 0) then NaN
    else of_decimal neg fp (read_exponent s3 - fc).

End JSNumber.

Import JSNumber.

(** ** Thrown values and handler computations *)

(** What a [catch (error)] clause can receive: an instance of [Error]
    carrying a message, or any other value. *)
Inductive thrown : Type :=
| JsError (message : string)
| NonError.

(** [error instanceof Error ? error.message : '알 수 없는 오류가 발생했습니다.'] *)
Definition error_message (error : thrown) : string :=
  match error with
  | JsError message => message
  | NonError => "알 수 없는 오류가 발생했습니다."
  end.

Inductive outcome (A : Type) : Type :=
| Returned (a : A)
| Threw (e : thrown).
Arguments Returned {A} a.
Arguments Threw {A} e.

(** The calls a handler makes on the network and on the inference
    library. *)
Inductive call : Type :=
| Fetch (url : string) (headers : list (string * string))
| NewInferenceClient (accessToken : string)
| TextToImage (provider model inputs : string) (num_inference_steps : Z)
              (outputType : string).

(** A handler computation: given the calls issued so far, an outcome and
    the calls issued up to it. The record of calls survives a throw. *)
Definition M (A : Type) : Type := list call -> outcome A * list call.

Definition ret {A} (a : A) : M A := fun log => (Returned a, log).

Definition throw {A} (e : thrown) : M A := fun log => (Threw e, log).

Definition bind {A B} (m : M A) (k : A -> M B) : M B :=
  fun log =>
    match m log with
    | (Returned a, log') => k a log'
    | (Threw e, log') => (Threw e, log')
    end.

(** [try { body } catch (error) { handler }] *)
Definition try_catch {A} (body : M A) (handler : thrown -> M A) : M A :=
  fun log =>
    match body log with
    | (Returned a, log') => (Returned a, log')
    | (Threw e, log') => handler e log'
    end.

(** Makes the call [c], which the outside answers with [o]. *)
Definition perform {A} (c : call) (o : outcome A) : M A :=
  fun log => (o, (log ++ [c])%list).

(** An outcome the runtime has at hand, no call made: the clock, the body
    of a reply already received. *)
Definition answer {A} (o : outcome A) : M A := fun log => (o, log).

Definition run {A} (m : M A) : outcome A * list call := m [].

Declare Scope js_scope.
Delimit Scope js_scope with js.
Notation "x <- m ;; k" := (bind m (fun x => k))
  (at level 61, m at next level, right associativity) : js_scope.
Open Scope js_scope.

(** [v || fallback] for a string-valued [v] that may be absent: the empty
    string is falsy. *)
Definition or_else (v : option string) (fallback : string) : string :=
  match v with
  | Some (String c s) => String c s
  | _ => fallback
  end.

(** ** The response envelope *)

Inductive content_item : Type :=
| TextItem (text : string)
| ImageItem (data mimeType : string).

Record structured : Type := { sc_content : list content_item }.

(** What a tool handler returns: [{ content, structuredContent: { content } }]. *)
Record tool_result : Type := {
  content : list content_item;
  structuredContent : structured
}.

(** ** Upstream replies, as the handlers read them *)

Record response (A : Type) : Type := {
  ok : bool;
  status : Z;
  statusText : string;
  json : outcome A
}.
Arguments ok {A} r.
Arguments status {A} r.
Arguments statusText {A} r.
Arguments json {A} r.

(** One Nominatim search result; a field is [None] when absent. *)
Record place : Type := {
  lat : option string;
  lon : option string;
  display_name : option string
}.

(** The body of a Nominatim reply: [null] or an array of results. *)
Inductive geo_json : Type :=
| GeoNull
| GeoArray (results : list place).

(** An Open-Meteo series: each sample a Number or [null] ([None]). *)
Definition series : Type := list (option number).

Record hourly_json : Type := {
  hourly_time : option (list string);
  temperature_2m : option series;
  relative_humidity_2m : option series;
  wind_speed_10m : option series;
  hourly_weather_code : option series
}.

Record daily_json : Type := {
  daily_time : option (list string);
  temperature_2m_max : option series;
  temperature_2m_min : option series;
  precipitation_sum : option series;
  daily_weather_code : option series
}.

Record forecast_json : Type := {
  error : bool;
  reason : option string;
  hourly : option hourly_json;
  daily : option daily_json
}.

(** The wall-clock fields of an instant in a timezone. *)
Record civil_time : Type := {
  year : Z; month : Z; day : Z; hour : Z; minute : Z; second : Z
}.

(** What the JavaScript runtime and the upstream services answer. *)
Record Runtime : Type := {
  (** [new Date()] seen through [Intl.DateTimeFormat] with [timeZone: tz];
      throws (a RangeError) on a timezone the runtime does not know. *)
  zoned_now : string -> outcome civil_time;
  (** [new URLSearchParams({...}).toString()] *)
  URLSearchParams_toString : list (string * string) -> string;
  (** [fetch(url, { headers })] against the geocoding service *)
  fetch_geocoding : string -> list (string * string) -> outcome (response geo_json);
  (** [fetch(url)] against the forecast service *)
  fetch_forecast : string -> outcome (response forecast_json);
  (** [client.textToImage(...)] followed by [imageBlob.arrayBuffer()] *)
  textToImage : string -> string -> outcome (list Byte.byte);
  (** [buffer.toString('base64')] *)
  base64 : list Byte.byte -> string;
  (** [new Date(s).toLocaleDateString('ko-KR',
        { month: 'short', day: 'numeric', weekday: 'short' })] *)
  toLocaleDateString_ko : option string -> string
}.

(** [configSchema]: one optional string. *)
Record Config : Type := { HF_TOKEN : option string }.

(** ** Values read out of a reply *)

(** What indexing a series yields: [undefined] past its end. *)
Inductive jsval : Type :=
| Undefined
| Null
| Num (x : number).

(** [arr[i]] *)
Definition index (arr : series) (i : nat) : jsval :=
  match nth_error arr i with
  | Some (Some x) => Num x
  | Some None => Null
  | None => Undefined
  end.

(** [${v}] *)
Definition render (v : jsval) : string :=
  match v with
  | Undefined => "undefined"
  | Null => "null"
  | Num x => to_string x
  end.

(** [v !== undefined] *)
Definition defined (v : jsval) : bool :=
  match v with
  | Undefined => false
  | _ => true
  end.

(** [hourly?.field?.[0]] *)
Definition first_sample (h : option hourly_json)
    (field : hourly_json -> option series) : jsval :=
  match h with
  | Some h' => match field h' with
               | Some arr => index arr 0
               | None => Undefined
               end
  | None => Undefined
  end.

(** [ToString(v)] of a string field that may be absent, as [parseFloat]
    applies it to its argument. *)
Definition or_else_undefined (v : option string) : string :=
  match v with
  | Some s => s
  | None => "undefined"
  end.

(** [series || []] *)
Definition or_empty (s : option series) : series :=
  match s with
  | Some arr => arr
  | None => []
  end.

Fixpoint lookup (key : string) (table : list (string * string)) : option string :=
  match table with
  | [] => None
  | (k, v) :: rest => if String.eqb k key then Some v else lookup key rest
  end.

(** The table of [getWeatherDescription], keyed as a JavaScript object
    keys its numeric properties: by their decimal strings. *)
Definition weatherCodes : list (string * string) :=
  [ ("0", "맑음"); ("1", "대체로 맑음"); ("2", "부분적으로 흐림"); ("3", "흐림");
    ("45", "안개"); ("48", "서리 안개");
    ("51", "약한 이슬비"); ("53", "중간 이슬비"); ("55", "강한 이슬비");
    ("56", "약한 동결 이슬비"); ("57", "강한 동결 이슬비");
    ("61", "약한 비"); ("63", "중간 비"); ("65", "강한 비");
    ("66", "약한 동결 비"); ("67", "강한 동결 비");
    ("71", "약한 눈"); ("73", "중간 눈"); ("75", "강한 눈"); ("77", "눈알갱이");
    ("80", "약한 소나기"); ("81", "중간 소나기"); ("82", "강한 소나기");
    ("85", "약한 눈 소나기"); ("86", "강한 눈 소나기");
    ("95", "뇌우"); ("96", "우박을 동반한 뇌우"); ("99", "강한 우박을 동반한 뇌우") ].

(** [weatherCodes[code] || `날씨 코드: ${code}`] *)
Definition getWeatherDescription (code : jsval) : string :=
  or_else (lookup (render code) weatherCodes) ("날씨 코드: " ++ render code).

(** [for (let i = 0; i < n; i++) body], the bound fixed before the loop. *)
Definition for_loop {S : Type} (n : nat) (body : nat -> S -> S) (s : S) : S :=
  fold_left (fun acc i => body i acc) (seq 0 n) s.

Definition two_digit (z : Z) : string :=
  if z <? 10 then "0" ++ string_of_Z z else string_of_Z z.

(** What [Intl.DateTimeFormat('ko-KR', { year: 'numeric', month: '2-digit',
    day: '2-digit', hour: '2-digit', minute: '2-digit', second: '2-digit',
    hour12: false }).format] makes of the wall-clock fields: the Korean
    locale's pattern [y. MM. dd. HH:mm:ss]. *)
Definition format_ko_KR (t : civil_time) : string :=
  string_of_Z (year t) ++ ". " ++ two_digit (month t) ++ ". " ++
  two_digit (day t) ++ ". " ++ two_digit (hour t) ++ ":" ++
  two_digit (minute t) ++ ":" ++ two_digit (second t).

(** ** The tool inputs *)

Inductive Language : Type := ko | en.

Inductive operator : Type := Plus | Minus | Times | Divide.

Definition operator_symbol (op : operator) : string :=
  match op with
  | Plus => "+"
  | Minus => "-"
  | Times => "*"
  | Divide => "/"
  end.

(** ** The handlers *)

Section Handlers.

Variable rt : Runtime.
Variable config : option Config.

Definition greet (name : string) (language : Language) : M tool_result :=
  let greeting :=
    match language with
    | ko => "안녕하세요, " ++ name ++ "님!"
    | en => "Hey there, " ++ name ++ "! 👋 Nice to meet you!"
    end in
  ret {| content := [TextItem greeting];
         structuredContent := {| sc_content := [TextItem greeting] |} |}.

Definition calculator (number1 number2 : number) (op : operator) : M tool_result :=
  result <-
    match op with
    | Plus => ret (add number1 number2)
    | Minus => ret (sub number1 number2)
    | Times => ret (mul number1 number2)
    | Divide =>
        if strict_equal number2 zero
        then throw (JsError "0으로 나눌 수 없습니다.")
        else ret (div number1 number2)
    end ;;
  let resultText :=
    to_string number1 ++ " " ++ operator_symbol op ++ " " ++
    to_string number2 ++ " = " ++ to_string result in
  ret {| content := [TextItem resultText];
         structuredContent := {| sc_content := [TextItem resultText] |} |}.

Definition time (timezone : string) : M tool_result :=
  try_catch
    (now <- answer (zoned_now rt timezone) ;;
     let formattedTime := format_ko_KR now in
     let resultText := timezone ++ "의 현재 시간: " ++ formattedTime in
     ret {| content := [TextItem resultText];
            structuredContent := {| sc_content := [TextItem resultText] |} |})
    (fun _ => throw (JsError ("유효하지 않은 타임존입니다: " ++ timezone))).

Definition geocode (query : string) : M tool_result :=
  try_catch
    (let baseUrl := "https://nominatim.openstreetmap.org/search" in
     let params :=
       URLSearchParams_toString rt
         [("q", query); ("format", "json"); ("limit", "1"); ("addressdetails", "1")] in
     let url := baseUrl ++ "?" ++ params in
     let headers := [("User-Agent", "MCP-Geocode-Tool/1.0")] in
     response <- perform (Fetch url headers) (fetch_geocoding rt url headers) ;;
     if negb (ok response) then
       throw (JsError ("API 요청 실패: " ++ string_of_Z (status response) ++ " " ++
                       statusText response))
     else
       data <- answer (json response) ;;
       match data with
       | GeoNull | GeoArray [] =>
           ret {| content :=
                    [TextItem (dquote ++ query ++ dquote ++
                               "에 대한 검색 결과를 찾을 수 없습니다.")];
                  structuredContent :=
                    {| sc_content :=
                         [TextItem (dquote ++ query ++ dquote ++
                                    "에 대한 검색 결과를 찾을 수 없습니다.")] |} |}
       | GeoArray (result :: _) =>
           let lat := parseFloat (or_else_undefined (lat result)) in
           let lon := parseFloat (or_else_undefined (lon result)) in
           let displayName := or_else (display_name result) query in
           let resultText :=
             "주소: " ++ displayName ++ LF ++
             "위도: " ++ to_string lat ++ LF ++
             "경도: " ++ to_string lon ++ LF ++
             "좌표: (" ++ to_string lat ++ ", " ++ to_string lon ++ ")" in
           ret {| content := [TextItem resultText];
                  structuredContent := {| sc_content := [TextItem resultText] |} |}
       end)
    (fun error => throw (JsError ("지오코딩 실패: " ++ error_message error))).

(** The rule under the two headings of the weather report. *)
Definition rule : string := "━━━━━━━━━━━━━━━━━━━━━━━━━━━━━━━━━━━━━━━━".

(** The body of the loop over the forecast days: what day [i] appends to
    [resultText]. [bound] is [Math.min(forecast_days, daily.time.length)]. *)
Definition daily_body (times : list string)
    (maxTemps minTemps precipitations weatherCodes : series) (bound : Z)
    (i : nat) (resultText : string) : string :=
  let dateStr := toLocaleDateString_ko rt (nth_error times i) in
  let resultText := resultText ++ dateStr ++ LF in
  let resultText :=
    resultText ++ "  최고: " ++ render (index maxTemps i) ++ "°C | 최저: " ++
    render (index minTemps i) ++ "°C" ++ LF in
  let resultText :=
    resultText ++ "  강수량: " ++ render (index precipitations i) ++ "mm" ++ LF in
  let resultText :=
    resultText ++ "  날씨: " ++ getWeatherDescription (index weatherCodes i) ++ LF in
  if Z.of_nat i <? bound - 1 then resultText ++ LF else resultText.

(** The first part of the report: the position, the horizon and the
    current conditions, read from the first hourly sample. *)
Definition current_weather_text (latitude longitude : number) (forecast_days : Z)
    (data : forecast_json) : string :=
  let currentTime :=
    or_else (match hourly data with
             | Some h => match hourly_time h with
                         | Some t => nth_error t 0
                         | None => None
                         end
             | None => None
             end) "현재" in
  let currentTemp := first_sample (hourly data) temperature_2m in
  let currentHumidity := first_sample (hourly data) relative_humidity_2m in
  let currentWindSpeed := first_sample (hourly data) wind_speed_10m in
  let currentWeatherCode := first_sample (hourly data) hourly_weather_code in
  let resultText :=
    "📍 위치: 위도 " ++ to_string latitude ++ ", 경도 " ++ to_string longitude ++ LF in
  let resultText :=
    resultText ++ "⏰ 예보 기간: " ++ string_of_Z forecast_days ++ "일" ++ LF ++ LF in
  let resultText := resultText ++ "🌤️ 현재 날씨 (" ++ currentTime ++ ")" ++ LF in
  let resultText := resultText ++ rule ++ LF in
  let resultText :=
    if defined currentTemp
    then resultText ++ "온도: " ++ render currentTemp ++ "°C" ++ LF
    else resultText in
  let resultText :=
    if defined currentHumidity
    then resultText ++ "습도: " ++ render currentHumidity ++ "%" ++ LF
    else resultText in
  let resultText :=
    if defined currentWindSpeed
    then resultText ++ "풍속: " ++ render currentWindSpeed ++ " km/h" ++ LF
    else resultText in
  let resultText :=
    if defined currentWeatherCode
    then resultText ++ "날씨: " ++ getWeatherDescription currentWeatherCode ++ LF
    else resultText in
  resultText ++ LF.

(** The text the weather handler builds from a reply that declares no
    error: the current conditions, then the daily forecast when the reply
    carries [daily.time]. *)
Definition weather_text (latitude longitude : number) (forecast_days : Z)
    (data : forecast_json) : string :=
  let resultText := current_weather_text latitude longitude forecast_days data in
  match daily data with
  | Some daily =>
      match daily_time daily with
      | Some times =>
          let resultText :=
            resultText ++ "📅 " ++ string_of_Z forecast_days ++ "일 예보" ++ LF in
          let resultText := resultText ++ rule ++ LF in
          let maxTemps := or_empty (temperature_2m_max daily) in
          let minTemps := or_empty (temperature_2m_min daily) in
          let precipitations := or_empty (precipitation_sum daily) in
          let weatherCodes := or_empty (daily_weather_code daily) in
          let bound := Z.min forecast_days (Z.of_nat (length times)) in
          for_loop (Z.to_nat bound)
            (daily_body times maxTemps minTemps precipitations weatherCodes bound)
            resultText
      | None => resultText
      end
  | None => resultText
  end.

(** [forecast_days] is [None] when the caller left it out; the handler's
    parameter list defaults it to 7. *)
Definition get_weather (latitude longitude : number) (forecast_days : option Z)
  : M tool_result :=
  let forecast_days := match forecast_days with Some f => f | None => 7 end in
  try_catch
    (let baseUrl := "https://api.open-meteo.com/v1/forecast" in
     let params :=
       URLSearchParams_toString rt
         [("latitude", to_string latitude);
          ("longitude", to_string longitude);
          ("forecast_days", string_of_Z forecast_days);
          ("hourly", "temperature_2m,relative_humidity_2m,precipitation,weather_code,wind_speed_10m");
          ("daily", "temperature_2m_max,temperature_2m_min,precipitation_sum,weather_code");
          ("timezone", "auto")] in
     let url := baseUrl ++ "?" ++ params in
     response <- perform (Fetch url []) (fetch_forecast rt url) ;;
     if negb (ok response) then
       throw (JsError ("API 요청 실패: " ++ string_of_Z (status response) ++ " " ++
                       statusText response))
     else
       data <- answer (json response) ;;
       if error data then
         throw (JsError (or_else (reason data) "알 수 없는 오류가 발생했습니다."))
       else
         let resultText := weather_text latitude longitude forecast_days data in
         ret {| content := [TextItem resultText];
                structuredContent := {| sc_content := [TextItem resultText] |} |})
    (fun error => throw (JsError ("날씨 정보 조회 실패: " ++ error_message error))).

Definition generate_image (prompt : string) : M tool_result :=
  try_catch
    (let hfToken :=
       match config with
       | Some c => HF_TOKEN c
       | None => None
       end in
     match hfToken with
     | None | Some EmptyString =>
         throw (JsError "HF_TOKEN이 설정되지 않았습니다. 이미지 생성을 사용하려면 Hugging Face 토큰을 설정해주세요.")
     | Some hfToken =>
         _ <- perform (NewInferenceClient hfToken) (Returned tt) ;;
         imageBlob <-
           perform (TextToImage "auto" "black-forest-labs/FLUX.1-schnell" prompt 5 "blob")
                   (textToImage rt hfToken prompt) ;;
         let base64Image := base64 rt imageBlob in
         ret {| content := [ImageItem base64Image "image/png"];
                structuredContent :=
                  {| sc_content := [ImageItem base64Image "image/png"] |} |}
     end)
    (fun error => throw (JsError ("이미지 생성 실패: " ++ error_message error))).

(** ** Tool calls *)

(** A call of one of the six registered tools, with validated arguments. *)
Inductive tool_call : Type :=
| Greet (name : string) (language : Language)
| Calculator (number1 number2 : number) (op : operator)
| Time (timezone : string)
| Geocode (query : string)
| GetWeather (latitude longitude : number) (forecast_days : option Z)
| GenerateImage (prompt : string).

Definition tool_name (c : tool_call) : string :=
  match c with
  | Greet _ _ => "greet"
  | Calculator _ _ _ => "calculator"
  | Time _ => "time"
  | Geocode _ => "geocode"
  | GetWeather _ _ _ => "get-weather"
  | GenerateImage _ => "generate-image"
  end.

(** Runs the handler registered under the tool's name. *)
Definition call_tool (c : tool_call) : outcome tool_result * list call :=
  run match c with
      | Greet name language => greet name language
      | Calculator number1 number2 op => calculator number1 number2 op
      | Time timezone => time timezone
      | Geocode query => geocode query
      | GetWeather latitude longitude forecast_days =>
          get_weather latitude longitude forecast_days
      | GenerateImage prompt => generate_image prompt
      end.

End Handlers.

(** ** The registered input contracts and the [server-info] listing *)

(** A literal of the source: a string, a number, a boolean, or an array
    of strings. *)
Inductive literal : Type :=
| LStr (s : string)
| LNum (n : Z)
| LBool (b : bool)
| LArr (items : list string).

(** A zod field schema: the constructor it starts from and the methods
    chained onto it, in order. *)
Inductive zod_base : Type :=
| z_string
| z_number
| z_enum (values : list string).

Inductive zod_method : Type :=
| z_int
| z_min (n : Z)
| z_max (n : Z)
| z_optional
| z_default (v : literal)
| z_describe (s : string).

Record zod_type : Type := {
  base : zod_base;
  methods : list zod_method
}.

(** What [server.registerTool] is given for a tool, the handler apart. *)
Record registration : Type := {
  reg_name : string;
  reg_description : string;
  inputSchema : list (string * zod_type)
}.

Definition registered_tools : list registration :=
  [ {| reg_name := "greet";
       reg_description := "이름과 언어를 입력하면 인사말을 반환합니다.";
       inputSchema :=
         [ ("name", {| base := z_string;
                       methods := [z_describe "인사할 사람의 이름"] |});
           ("language", {| base := z_enum ["ko"; "en"];
                           methods := [z_optional; z_default (LStr "en");
                                       z_describe "인사 언어 (기본값: en)"] |}) ] |};
    {| reg_name := "calculator";
       reg_description := "두 개의 숫자와 연산자를 입력받아 사칙연산 결과를 반환합니다.";
       inputSchema :=
         [ ("number1", {| base := z_number; methods := [z_describe "첫 번째 숫자"] |});
           ("number2", {| base := z_number; methods := [z_describe "두 번째 숫자"] |});
           ("operator", {| base := z_enum ["+"; "-"; "*"; "/"];
                           methods := [z_describe "연산자 (+, -, *, /)"] |}) ] |};
    {| reg_name := "time";
       reg_description := "특정 타임존의 현재 시간을 반환합니다.";
       inputSchema :=
         [ ("timezone",
            {| base := z_string;
               methods := [z_describe "IANA 타임존 이름 (예: Asia/Seoul, America/New_York, Europe/London)"] |}) ] |};
    {| reg_name := "geocode";
       reg_description := "도시 이름이나 주소를 입력받아 위도와 경도 좌표를 반환합니다.";
       inputSchema :=
         [ ("query",
            {| base := z_string;
               methods := [z_describe ("검색할 도시 이름이나 주소 (예: " ++ dquote ++ "Seoul" ++
                                       dquote ++ ", " ++ dquote ++ "New York" ++ dquote ++
                                       ", " ++ dquote ++ "서울시 강남구" ++ dquote ++ ")")] |}) ] |};
    {| reg_name := "get-weather";
       reg_description := "위도와 경도 좌표, 예보 기간을 입력받아 해당 위치의 현재 날씨와 예보 정보를 제공합니다.";
       inputSchema :=
         [ ("latitude", {| base := z_number; methods := [z_describe "위도 좌표 (WGS84)"] |});
           ("longitude", {| base := z_number; methods := [z_describe "경도 좌표 (WGS84)"] |});
           ("forecast_days",
            {| base := z_number;
               methods := [z_int; z_min 1; z_max 16; z_optional; z_default (LNum 7);
                           z_describe "예보 기간 (일 단위, 기본값: 7일, 최대: 16일)"] |}) ] |};
    {| reg_name := "generate-image";
       reg_description := "텍스트 프롬프트를 입력받아 AI로 이미지를 생성합니다.";
       inputSchema :=
         [ ("prompt", {| base := z_string;
                         methods := [z_describe "이미지를 생성할 텍스트 프롬프트"] |}) ] |} ].

(** One entry of [serverInfo.tools]: each parameter an object literal,
    kept as its key/value pairs. *)
Record listed_tool : Type := {
  name : string;
  description : string;
  parameters : list (string * list (string * literal))
}.

Record server_info : Type := {
  si_name : string;
  version : string;
  timestamp : string;
  tools : list listed_tool;
  totalTools : Z
}.

(** The object the [server-info] resource serialises; [now] is
    [new Date().toISOString()]. *)
Definition serverInfo (now : string) : server_info :=
  {| si_name := "mcp-server-251215";
     version := "1.0.0";
     timestamp := now;
     tools :=
       [ {| name := "greet";
            description := "이름과 언어를 입력하면 인사말을 반환합니다.";
            parameters :=
              [ ("name", [("type", LStr "string");
                          ("description", LStr "인사할 사람의 이름")]);
                ("language", [("type", LStr "string");
                              ("enum", LArr ["ko"; "en"]);
                              ("optional", LBool true);
                              ("default", LStr "en");
                              ("description", LStr "인사 언어 (기본값: en)")]) ] |};
         {| name := "calculator";
            description := "두 개의 숫자와 연산자를 입력받아 사칙연산 결과를 반환합니다.";
            parameters :=
              [ ("number1", [("type", LStr "number");
                             ("description", LStr "첫 번째 숫자")]);
                ("number2", [("type", LStr "number");
                             ("description", LStr "두 번째 숫자")]);
                ("operator", [("type", LStr "string");
                              ("enum", LArr ["+"; "-"; "*"; "/"]);
                              ("description", LStr "연산자 (+, -, *, /)")]) ] |};
         {| name := "time";
            description := "특정 타임존의 현재 시간을 반환합니다.";
            parameters :=
              [ ("timezone",
                 [("type", LStr "string");
                  ("description", LStr "IANA 타임존 이름 (예: Asia/Seoul, America/New_York, Europe/London)")]) ] |};
         {| name := "geocode";
            description := "도시 이름이나 주소를 입력받아 위도와 경도 좌표를 반환합니다.";
            parameters :=
              [ ("query",
                 [("type", LStr "string");
                  ("description",
                   LStr ("검색할 도시 이름이나 주소 (예: " ++ dquote ++ "Seoul" ++
                         dquote ++ ", " ++ dquote ++ "New York" ++ dquote ++
                         ", " ++ dquote ++ "서울시 강남구" ++ dquote ++ ")"))]) ] |};
         {| name := "get-weather";
            description := "위도와 경도 좌표, 예보 기간을 입력받아 해당 위치의 현재 날씨와 예보 정보를 제공합니다.";
            parameters :=
              [ ("latitude", [("type", LStr "number");
                              ("description", LStr "위도 좌표 (WGS84)")]);
                ("longitude", [("type", LStr "number");
                               ("description", LStr "경도 좌표 (WGS84)")]);
                ("forecast_days", [("type", LStr "number");
                                   ("optional", LBool true);
                                   ("default", LNum 7);
                                   ("min", LNum 1);
                                   ("max", LNum 16);
                                   ("description", LStr "예보 기간 (일 단위, 기본값: 7일, 최대: 16일)")]) ] |};
         {| name := "generate-image";
            description := "텍스트 프롬프트를 입력받아 AI로 이미지를 생성합니다.";
            parameters :=
              [ ("prompt", [("type", LStr "string");
                            ("description", LStr "이미지를 생성할 텍스트 프롬프트")]) ] |} ];
     totalTools := 6 |}.

(** *** Comparing a contract with its listing *)

(** One constraint on a field, as a contract declares it and as a listing
    advertises it. *)
Inductive constraint : Type :=
| CType (t : string)
| CEnum (values : list string)
| CInteger
| CMin (n : Z)
| CMax (n : Z)
| COptional
| CDefault (v : literal)
| CDescription (s : string).

Definition literal_eq_dec (a b : literal) : {a = b} + {a <> b}.
Proof.
  decide equality;
    [ apply string_dec | apply Z.eq_dec | apply bool_dec
    | apply (list_eq_dec string_dec) ].
Defined.

Definition constraint_eq_dec (a b : constraint) : {a = b} + {a <> b}.
Proof.
  decide equality;
    [ apply string_dec | apply (list_eq_dec string_dec) | apply Z.eq_dec
    | apply Z.eq_dec | apply literal_eq_dec | apply string_dec ].
Defined.

Definition has_constraint (c : constraint) (l : list constraint) : bool :=
  if in_dec constraint_eq_dec c l then true else false.

(** The constraints a zod field schema declares. *)
Definition contract_constraints (t : zod_type) : list constraint :=
  (match base t with
   | z_string => [CType "string"]
   | z_number => [CType "number"]
   | z_enum values => [CType "string"; CEnum values]
   end ++
   map (fun m => match m with
                 | z_int => CInteger
                 | z_min n => CMin n
                 | z_max n => CMax n
                 | z_optional => COptional
                 | z_default v => CDefault v
                 | z_describe s => CDescription s
                 end) (methods t))%list.

(** The constraints a listed parameter advertises. An integer field could
    be advertised as [type: 'integer'] or with an [int] or [integer] flag. *)
Definition listed_constraint (key : string) (v : literal) : list constraint :=
  if String.eqb key "type" then
    match v with
    | LStr "integer" => [CType "number"; CInteger]
    | LStr t => [CType t]
    | _ => []
    end
  else if String.eqb key "enum" then
    match v with LArr values => [CEnum values] | _ => [] end
  else if String.eqb key "int" || String.eqb key "integer" then
    match v with LBool true => [CInteger] | _ => [] end
  else if String.eqb key "min" then
    match v with LNum n => [CMin n] | _ => [] end
  else if String.eqb key "max" then
    match v with LNum n => [CMax n] | _ => [] end
  else if String.eqb key "optional" then
    match v with LBool true => [COptional] | _ => [] end
  else if String.eqb key "default" then [CDefault v]
  else if String.eqb key "description" then
    match v with LStr s => [CDescription s] | _ => [] end
  else [].

Definition listed_constraints (meta : list (string * literal)) : list constraint :=
  flat_map (fun kv => listed_constraint (fst kv) (snd kv)) meta.

Fixpoint assoc {A : Type} (key : string) (l : list (string * A)) : option A :=
  match l with
  | [] => None
  | (k, v) :: rest => if String.eqb k key then Some v else assoc key rest
  end.

(** The constraints of [reg]'s contract that [l] does not advertise, each
    with its tool and field. *)
Definition missing_from_listing (reg : registration) (l : listed_tool)
  : list (string * string * constraint) :=
  flat_map
    (fun field =>
       let listed :=
         match assoc (fst field) (parameters l) with
         | Some meta => listed_constraints meta
         | None => []
         end in
       map (fun c => (reg_name reg, fst field, c))
           (filter (fun c => negb (has_constraint c listed))
                   (contract_constraints (snd field))))
    (inputSchema reg).

(** The constraints [l] advertises that [reg]'s contract does not declare. *)
Definition absent_from_contract (reg : registration) (l : listed_tool)
  : list (string * string * constraint) :=
  flat_map
    (fun param =>
       let declared :=
         match assoc (fst param) (inputSchema reg) with
         | Some t => contract_constraints t
         | None => []
         end in
       map (fun c => (name l, fst param, c))
           (filter (fun c => negb (has_constraint c declared))
                   (listed_constraints (snd param))))
    (parameters l).

(** Every contract constraint the listing of [serverInfo] leaves out, and
    every listed constraint no contract declares, tool by tool in
    registration order. *)
Definition listing_gaps (now : string) : list (string * string * constraint) :=
  flat_map (fun p => missing_from_listing (fst p) (snd p))
           (combine registered_tools (tools (serverInfo now))).

Definition listing_extras (now : string) : list (string * string * constraint) :=
  flat_map (fun p => absent_from_contract (fst p) (snd p))
           (combine registered_tools (tools (serverInfo now))).

(** ** The vocabulary of the specification *)

(** The envelope around one text: the same item in both forms. *)
Definition text_result (text : string) : tool_result :=
  {| content := [TextItem text];
     structuredContent := {| sc_content := [TextItem text] |} |}.

(** The error kinds of the specification, as the values the handlers
    throw for them. *)
Definition DivisionByZeroError : thrown :=
  JsError "0으로 나눌 수 없습니다.".

Definition InvalidTimezoneError (timezone : string) : thrown :=
  JsError ("유효하지 않은 타임존입니다: " ++ timezone).

Definition MissingCredentialError : thrown :=
  JsError ("이미지 생성 실패: " ++
           "HF_TOKEN이 설정되지 않았습니다. 이미지 생성을 사용하려면 Hugging Face 토큰을 설정해주세요.").

(** The arithmetic an operator names. *)
Definition declared_arithmetic (op : operator) (a b : number) : number :=
  match op with
  | Plus => add a b
  | Minus => sub a b
  | Times => mul a b
  | Divide => div a b
  end.


(** The token a handler sees through [config?.HF_TOKEN]. *)
Definition credential (config : option Config) : option string :=
  match config with
  | Some c => HF_TOKEN c
  | None => None
  end.

(** The requests of the two HTTP-calling handlers. *)
Definition geocode_url (rt : Runtime) (query : string) : string :=
  "https://nominatim.openstreetmap.org/search" ++ "?" ++
  URLSearchParams_toString rt
    [("q", query); ("format", "json"); ("limit", "1"); ("addressdetails", "1")].

Definition geocode_headers : list (string * string) :=
  [("User-Agent", "MCP-Geocode-Tool/1.0")].

Definition forecast_url (rt : Runtime) (latitude longitude : number)
    (forecast_days : Z) : string :=
  "https://api.open-meteo.com/v1/forecast" ++ "?" ++
  URLSearchParams_toString rt
    [("latitude", to_string latitude);
     ("longitude", to_string longitude);
     ("forecast_days", string_of_Z forecast_days);
     ("hourly", "temperature_2m,relative_humidity_2m,precipitation,weather_code,wind_speed_10m");
     ("daily", "temperature_2m_max,temperature_2m_min,precipitation_sum,weather_code");
     ("timezone", "auto")].

(** The geocoder's two messages. *)
Definition no_results_message (query : string) : string :=
  dquote ++ query ++ dquote ++ "에 대한 검색 결과를 찾을 수 없습니다.".

Definition place_message (address : string) (latitude longitude : number) : string :=
  "주소: " ++ address ++ LF ++
  "위도: " ++ to_string latitude ++ LF ++
  "경도: " ++ to_string longitude ++ LF ++
  "좌표: (" ++ to_string latitude ++ ", " ++ to_string longitude ++ ")".

(** The forecast horizon a call asks for, the default applied. *)
Definition horizon (forecast_days : option Z) : Z :=
  match forecast_days with
  | Some f => f
  | None => 7
  end.

(** The block of forecast day [i]: its date, its temperatures, its
    precipitation and its condition, one line each. *)
Definition day_block (rt : Runtime) (d : daily_json) (times : list string)
    (i : nat) : string :=
  toLocaleDateString_ko rt (nth_error times i) ++ LF ++
  "  최고: " ++ render (index (or_empty (temperature_2m_max d)) i) ++
  "°C | 최저: " ++ render (index (or_empty (temperature_2m_min d)) i) ++ "°C" ++ LF ++
  "  강수량: " ++ render (index (or_empty (precipitation_sum d)) i) ++ "mm" ++ LF ++
  "  날씨: " ++ getWeatherDescription (index (or_empty (daily_weather_code d)) i) ++ LF.

(** The heading of the daily forecast. *)
Definition daily_heading (forecast_days : Z) : string :=
  "📅 " ++ string_of_Z forecast_days ++ "일 예보" ++ LF ++ rule ++ LF.

(** Shapes of a timestamp: a digit, or a given character. *)
Inductive shape : Type :=
| Digit
| Char (c : ascii).

Fixpoint has_shape (p : list shape) (s : string) : bool :=
  match p, s with
  | [], EmptyString => true
  | Digit :: p', String c s' => is_digit c && has_shape p' s'
  | Char a :: p', String c s' => Ascii.eqb a c && has_shape p' s'
  | _, _ => false
  end.

(** [yyyy. MM. dd. HH:mm:ss] *)
Definition ko_KR_shape : list shape :=
  [Digit; Digit; Digit; Digit; Char "."; Char " ";
   Digit; Digit; Char "."; Char " ";
   Digit; Digit; Char "."; Char " ";
   Digit; Digit; Char ":"; Digit; Digit; Char ":"; Digit; Digit]%char.

(** The display format as the specification words it: four digits, then
    a hyphen. *)
Definition year_then_hyphen (stamp : string) : bool :=
  match stamp with
  | String a (String b (String c (String d (String e _)))) =>
      is_digit a && is_digit b && is_digit c && is_digit d && Ascii.eqb e "-"
  | _ => false
  end.

(** Wall-clock fields of the years 1000 to 9999; the hour runs to 24 for
    a runtime whose 24-hour cycle writes midnight so. *)
Definition civil (t : civil_time) : Prop :=
  1000 <= year t <= 9999 /\ 1 <= month t <= 12 /\ 1 <= day t <= 31 /\
  0 <= hour t <= 24 /\ 0 <= minute t <= 59 /\ 0 <= second t <= 59.

(** The wall-clock fields the runtime answers for [timezone], when it
    answers, are those of a civil time. *)
Definition civil_clock (rt : Runtime) (timezone : string) : Prop :=
  match zoned_now rt timezone with
  | Returned t => civil t
  | Threw _ => True
  end.

(** ** A runtime to run the handlers on *)

Module Example.

Definition instant : civil_time :=
  {| year := 2025; month := 12; day := 15; hour := 9; minute := 5; second := 7 |}.

Definition seoul : place :=
  {| lat := Some "37.5"; lon := Some "127.0"; display_name := Some "Seoul" |}.

Definition unnamed : place :=
  {| lat := Some "37.5"; lon := Some "127.0"; display_name := None |}.

Definition constant (x : Z) (n : nat) : option series :=
  Some (repeat (Some (of_Z x)) n).

Definition dates : list string :=
  ["2025-12-15"; "2025-12-16"; "2025-12-17"; "2025-12-18"; "2025-12-19";
   "2025-12-20"; "2025-12-21"; "2025-12-22"; "2025-12-23"; "2025-12-24"].

Definition ten_daily : daily_json :=
  {| daily_time := Some dates;
     temperature_2m_max := constant 5 10;
     temperature_2m_min := constant (-2) 10;
     precipitation_sum := constant 0 10;
     daily_weather_code := constant 3 10 |}.

(** A forecast of ten days. *)
Definition ten_days : forecast_json :=
  {| error := false;
     reason := None;
     hourly := Some {| hourly_time := Some ["2025-12-15T00:00"];
                       temperature_2m := constant 3 1;
                       relative_humidity_2m := constant 40 1;
                       wind_speed_10m := constant 12 1;
                       hourly_weather_code := constant 0 1 |};
     daily := Some ten_daily |}.

Definition reply {A : Type} (body : A) : outcome (response A) :=
  Returned {| ok := true; status := 200; statusText := "OK"; json := Returned body |}.

(** A runtime that knows the timezone UTC only, whose geocoding service
    answers [geo] and whose forecast service answers [ten_days]; it joins
    the parameters of a query string unescaped. *)
Definition runtime (geo : geo_json) : Runtime :=
  {| zoned_now := fun timezone =>
       if String.eqb timezone "UTC" then Returned instant
       else Threw (JsError ("Invalid time zone specified: " ++ timezone));
     URLSearchParams_toString := fun params =>
       String.concat "&" (map (fun kv => fst kv ++ "=" ++ snd kv) params);
     fetch_geocoding := fun _ _ => reply geo;
     fetch_forecast := fun _ => reply ten_days;
     textToImage := fun _ _ => Returned [];
     base64 := fun _ => "";
     toLocaleDateString_ko := fun s =>
       match s with
       | Some d => d
       | None => "Invalid Date"
       end |}.

End Example.

(** ** The code-review prompt *)

(** What the JavaScript runtime answers the prompt handler. *)
Record PromptRuntime : Type := {
  (** [s.toLowerCase()] *)
  toLowerCase : string -> string;
  (** [String(Object.prototype[key])] when [Object.prototype] has a member
      under [key], which every object literal inherits; [None] when it has
      none. *)
  Object_prototype : string -> option string
}.

Fixpoint skip (n : nat) (s : string) : string :=
  match n, s with
  | S n', String _ s' => skip n' s'
  | _, _ => s
  end.

(** The first occurrence of [pattern] in [s]: what stands before it and
    what stands after it. *)
Fixpoint split_first (pattern s : string) : option (string * string) :=
  if String.prefix pattern s then Some ("", skip (String.length pattern) s)
  else match s with
       | EmptyString => None
       | String c s' =>
           match split_first pattern s' with
           | Some (before, after) => Some (String c before, after)
           | None => None
           end
       end.

(** [GetSubstitution] for a string pattern, which captures nothing: in the
    replacement, two dollar signs stand for one, a dollar sign and an
    ampersand for the matched text, a dollar sign and a backtick for the
    text before the match, a dollar sign and an apostrophe for the text
    after it; any other dollar sign stands for itself. *)
Fixpoint get_substitution (matched before after replacement : string) : string :=
  match replacement with
  | EmptyString => ""
  | String c tail =>
      if Ascii.eqb c "$" then
        match tail with
        | String d rest =>
            if Ascii.eqb d "$" then
              "$" ++ get_substitution matched before after rest
            else if Ascii.eqb d "&" then
              matched ++ get_substitution matched before after rest
            else if Ascii.eqb d "`" then
              before ++ get_substitution matched before after rest
            else if Ascii.eqb d "'" then
              after ++ get_substitution matched before after rest
            else String c (get_substitution matched before after tail)
        | EmptyString => String c ""
        end
      else String c (get_substitution matched before after tail)
  end.

(** [s.replace(pattern, replacement)], both strings: the first occurrence
    only. *)
Definition replace (s pattern replacement : string) : string :=
  match split_first pattern s with
  | Some (before, after) =>
      before ++ get_substitution pattern before after replacement ++ after
  | None => s
  end.

Definition CODE_REVIEW_TEMPLATE : string :=
"다음 코드를 리뷰해주세요. 다음 항목들을 중점적으로 확인해주세요:

## 리뷰 체크리스트

### 1. 코드 품질
- [ ] 코드가 명확하고 읽기 쉬운가?
- [ ] 변수명과 함수명이 의미 있는가?
- [ ] 중복 코드가 있는가?
- [ ] 불필요한 주석이나 코드가 있는가?

### 2. 버그 및 잠재적 문제
- [ ] 잠재적인 버그나 예외 상황 처리가 되어 있는가?
- [ ] 에러 핸들링이 적절한가?
- [ ] 경계 조건(boundary conditions)이 올바르게 처리되었는가?

### 3. 성능
- [ ] 성능 최적화가 필요한 부분이 있는가?
- [ ] 불필요한 연산이나 반복이 있는가?

### 4. 보안
- [ ] 보안 취약점이 있는가?
- [ ] 입력값 검증이 적절한가?

### 5. 모범 사례
- [ ] 해당 언어/프레임워크의 모범 사례를 따르고 있는가?
- [ ] 코드 스타일이 일관성 있는가?

## 리뷰 요청 코드

```
{code}
```

위 코드에 대해 위 체크리스트를 기반으로 상세한 리뷰를 작성해주세요. 개선 사항이 있다면 구체적인 예시와 함께 제시해주세요.".

Definition languageGuidelines : list (string * string) :=
  [
    ("typescript", "
### TypeScript 특화 체크리스트
- [ ] 타입 정의가 적절한가?
- [ ] any 타입 사용을 피했는가?
- [ ] 제네릭을 적절히 활용했는가?");
    ("javascript", "
### JavaScript 특화 체크리스트
- [ ] ES6+ 문법을 적절히 사용했는가?
- [ ] 비동기 처리가 올바른가?
- [ ] 메모리 누수 가능성이 있는가?");
    ("python", "
### Python 특화 체크리스트
- [ ] PEP 8 스타일 가이드를 따르고 있는가?
- [ ] 예외 처리가 적절한가?
- [ ] 리스트 컴프리헨션을 적절히 활용했는가?");
    ("java", "
### Java 특화 체크리스트
- [ ] 네이밍 컨벤션을 따르고 있는가?
- [ ] 예외 처리가 적절한가?
- [ ] 불필요한 객체 생성이 없는가?") ].

Definition focusGuidelines : list (string * string) :=
  [
    ("성능", "
### 성능 집중 리뷰
- [ ] 알고리즘 시간 복잡도가 최적인가?
- [ ] 불필요한 데이터베이스 쿼리가 있는가?
- [ ] 캐싱을 활용할 수 있는 부분이 있는가?");
    ("보안", "
### 보안 집중 리뷰
- [ ] SQL 인젝션 방지가 되어 있는가?
- [ ] XSS 공격 방지가 되어 있는가?
- [ ] 인증/인가 처리가 올바른가?
- [ ] 민감한 정보가 노출되지 않는가?");
    ("버그", "
### 버그 집중 리뷰
- [ ] null/undefined 체크가 충분한가?
- [ ] 배열 인덱스 범위 체크가 있는가?
- [ ] 타입 변환 시 오류 가능성이 있는가?") ].

(** What [record[key]] evaluates to on an object literal of strings. *)
Inductive property : Type :=
| Own (value : string)
| Inherited (text : string)
| Absent.

Record prompt_message : Type := {
  role : string;
  message_content : content_item
}.

Record prompt_result : Type := { messages : list prompt_message }.

Section Prompt.

Variable prt : PromptRuntime.

(** [record[key]] *)
Definition get (record : list (string * string)) (key : string) : property :=
  match lookup key record with
  | Some value => Own value
  | None =>
      match Object_prototype prt key with
      | Some text => Inherited text
      | None => Absent
      end
  end.

(** [if (p) prompt += p]: the empty string is falsy, a member of
    [Object.prototype] is not. *)
Definition append_if_truthy (prompt : string) (p : property) : string :=
  match p with
  | Own (String c s) => prompt ++ String c s
  | Own EmptyString => prompt
  | Inherited text => prompt ++ text
  | Absent => prompt
  end.

(** The handler of the [code-review] prompt; [language] and [focus] are
    [None] when left out. *)
Definition code_review (code : string) (language focus : option string)
  : M prompt_result :=
  let prompt := replace CODE_REVIEW_TEMPLATE "{code}" code in
  let prompt :=
    match language with
    | Some (String c s) =>
        append_if_truthy prompt
          (get languageGuidelines (toLowerCase prt (String c s)))
    | _ => prompt
    end in
  let prompt :=
    match focus with
    | Some (String c s) => append_if_truthy prompt (get focusGuidelines (String c s))
    | _ => prompt
    end in
  let prompt :=
    match language with
    | Some (String c s) =>
        prompt ++ LF ++ LF ++ "**참고**: 이 코드는 " ++ String c s ++ "로 작성되었습니다."
    | _ => prompt
    end in
  ret {| messages :=
           [ {| role := "user"; message_content := TextItem prompt |} ] |}.

End Prompt.

(** ** More of the vocabulary *)

(** The [type] literal the [outputSchema] of each tool declares for the
    items of its content. *)
Definition outputSchema_item_types : list (string * string) :=
  [ ("greet", "text"); ("calculator", "text"); ("time", "text");
    ("geocode", "text"); ("get-weather", "text"); ("generate-image", "image") ].

(** The [type] field of a content item. *)
Definition item_type (item : content_item) : string :=
  match item with
  | TextItem _ => "text"
  | ImageItem _ _ => "image"
  end.

(** The envelope around one image. *)
Definition image_result (data mimeType : string) : tool_result :=
  {| content := [ImageItem data mimeType];
     structuredContent := {| sc_content := [ImageItem data mimeType] |} |}.

(** The two calls of the image generator. *)
Definition inference_calls (token prompt : string) : list call :=
  [ NewInferenceClient token;
    TextToImage "auto" "black-forest-labs/FLUX.1-schnell" prompt 5 "blob" ].

(** The message both HTTP-calling handlers throw on a reply that is not
    a success. *)
Definition http_failure_message {A : Type} (reply : response A) : string :=
  "API 요청 실패: " ++ string_of_Z (status reply) ++ " " ++ statusText reply.

(** The description the source writes against each numeric condition
    code, by the number: 28 codes have one. *)
Definition described (code : Z) : option string :=
  match code with
  | 0 => Some "맑음"
  | 1 => Some "대체로 맑음"
  | 2 => Some "부분적으로 흐림"
  | 3 => Some "흐림"
  | 45 => Some "안개"
  | 48 => Some "서리 안개"
  | 51 => Some "약한 이슬비"
  | 53 => Some "중간 이슬비"
  | 55 => Some "강한 이슬비"
  | 56 => Some "약한 동결 이슬비"
  | 57 => Some "강한 동결 이슬비"
  | 61 => Some "약한 비"
  | 63 => Some "중간 비"
  | 65 => Some "강한 비"
  | 66 => Some "약한 동결 비"
  | 67 => Some "강한 동결 비"
  | 71 => Some "약한 눈"
  | 73 => Some "중간 눈"
  | 75 => Some "강한 눈"
  | 77 => Some "눈알갱이"
  | 80 => Some "약한 소나기"
  | 81 => Some "중간 소나기"
  | 82 => Some "강한 소나기"
  | 85 => Some "약한 눈 소나기"
  | 86 => Some "강한 눈 소나기"
  | 95 => Some "뇌우"
  | 96 => Some "우박을 동반한 뇌우"
  | 99 => Some "강한 우박을 동반한 뇌우"
  | _ => None
  end.

(** The line of one current sample: written unless the sample is
    [undefined]. *)
Definition sample_line (label : string) (v : jsval) (unit : string) : string :=
  if defined v then label ++ render v ++ unit ++ LF else "".

(** The line of the current condition. *)
Definition condition_line (code : jsval) : string :=
  if defined code then "날씨: " ++ getWeatherDescription code ++ LF else "".

(** The head of the report: the position, the horizon and the heading of
    the current conditions, which reads [label] for the time. *)
Definition report_head (latitude longitude : number) (forecast_days : Z)
    (label : string) : string :=
  "📍 위치: 위도 " ++ to_string latitude ++ ", 경도 " ++ to_string longitude ++ LF ++
  "⏰ 예보 기간: " ++ string_of_Z forecast_days ++ "일" ++ LF ++ LF ++
  "🌤️ 현재 날씨 (" ++ label ++ ")" ++ LF ++ rule ++ LF.

(** A string without a dollar sign. *)
Definition dollar_free (s : string) : Prop := includes "$" s = false.

(** The template around its placeholder: what stands before [{code}] and
    what stands after it. *)
Definition template_parts : string * string :=
  match split_first "{code}" CODE_REVIEW_TEMPLATE with
  | Some parts => parts
  | None => (CODE_REVIEW_TEMPLATE, "")
  end.

(** The review request around a snippet. *)
Definition review_request (snippet : string) : string :=
  fst template_parts ++ snippet ++ snd template_parts.

(** The closing note that names the language. *)
Definition language_note (language : string) : string :=
  LF ++ LF ++ "**참고**: 이 코드는 " ++ language ++ "로 작성되었습니다.".

(** An argument left out, or given as the empty string. *)
Definition blank (v : option string) : Prop := v = None \/ v = Some "".

(** The result of the prompt handler around a text. *)
Definition user_prompt (text : string) : prompt_result :=
  {| messages := [ {| role := "user"; message_content := TextItem text |} ] |}.

(** What a snippet comes out as when it replaces the placeholder of the
    template. *)
Definition inserted (code : string) : string :=
  get_substitution "{code}" (fst template_parts) (snd template_parts) code.

(** A key under which neither the record nor [Object.prototype] has
    anything. *)
Definition unknown (prt : PromptRuntime) (record : list (string * string))
    (key : string) : Prop :=
  lookup key record = None /\ Object_prototype prt key = None.

(** ** Runtimes for more scenarios *)

Module Scenario.

Definition lower (c : ascii) : ascii :=
  let n := nat_of_ascii c in
  if ((65 <=? n) && (n <=? 90))%nat then ascii_of_nat (n + 32) else c.

Fixpoint lowercase (s : string) : string :=
  match s with
  | EmptyString => EmptyString
  | String c s' => String (lower c) (lowercase s')
  end.

(** A runtime that lowers the letters A to Z and whose [Object.prototype]
    answers for [constructor] and [toString]. *)
Definition prompt_runtime : PromptRuntime :=
  {| toLowerCase := lowercase;
     Object_prototype := fun key =>
       if String.eqb key "constructor" then Some "function Object() { [native code] }"
       else if String.eqb key "toString" then Some "function toString() { [native code] }"
       else None |}.

(** A runtime whose geocoding service answers [geo], whose forecast
    service answers [forecast] and whose inference provider answers
    [image]; it encodes no byte and joins query parameters unescaped. *)
Definition runtime (geo : outcome (response geo_json))
    (forecast : outcome (response forecast_json))
    (image : outcome (list Byte.byte)) : Runtime :=
  {| zoned_now := fun _ => Threw NonError;
     URLSearchParams_toString := fun params =>
       String.concat "&" (map (fun kv => fst kv ++ "=" ++ snd kv) params);
     fetch_geocoding := fun _ _ => geo;
     fetch_forecast := fun _ => forecast;
     textToImage := fun _ _ => image;
     base64 := fun bytes => String.concat "" (map (fun _ => "AA") bytes);
     toLocaleDateString_ko := fun s =>
       match s with
       | Some d => d
       | None => "Invalid Date"
       end |}.

Definition unreachable {A : Type} : outcome (response A) :=
  Threw (JsError "fetch failed").

Definition not_found {A : Type} (body : A) : outcome (response A) :=
  Returned {| ok := false; status := 404; statusText := "Not Found";
              json := Returned body |}.

Definition found {A : Type} (body : A) : outcome (response A) :=
  Returned {| ok := true; status := 200; statusText := "OK"; json := Returned body |}.

Definition nowhere : place :=
  {| lat := None; lon := None; display_name := Some "Nowhere" |}.

Definition no_forecast : forecast_json :=
  {| error := false; reason := None; hourly := None; daily := None |}.

Definition refused : forecast_json :=
  {| error := true; reason := Some "Latitude must be in range of -90 to 90°.";
     hourly := None; daily := None |}.

Definition bare_daily : daily_json :=
  {| daily_time := Some ["2025-12-15"];
     temperature_2m_max := None; temperature_2m_min := None;
     precipitation_sum := None; daily_weather_code := None |}.

Definition null_sample : forecast_json :=
  {| error := false; reason := None;
     hourly := Some {| hourly_time := None;
                       temperature_2m := Some [None];
                       relative_humidity_2m := None;
                       wind_speed_10m := None;
                       hourly_weather_code := None |};
     daily := None |}.

End Scenario.

(** * Properties *)

(** ** Strings *)

Lemma prefix_app (sub post : string) : String.prefix sub (sub ++ post) = true.
Proof.
  induction sub as [| c sub IH]; simpl.
  - now destruct post.
  - destruct (ascii_dec c c) as [_ | ne]; [exact IH | now elim ne].
Qed.

Lemma includes_prefix (sub s : string) :
  String.prefix sub s = true -> includes sub s = true.
Proof. intros H. destruct s; cbn [includes]; rewrite H; reflexivity. Qed.

Lemma includes_app (pre sub post : string) :
  includes sub (pre ++ sub ++ post) = true.
Proof.
  induction pre as [| c pre IH].
  - change ("" ++ sub ++ post) with (sub ++ post). apply includes_prefix, prefix_app.
  - change (String c pre ++ sub ++ post) with (String c (pre ++ sub ++ post)).
    simpl includes. rewrite IH. apply orb_true_r.
Qed.

Lemma Contains_includes (sub s : string) : Contains sub s -> includes sub s = true.
Proof. intros (pre & post & ->). apply includes_app. Qed.

Lemma append_assoc (a b c : string) : (a ++ b) ++ c = a ++ b ++ c.
Proof. induction a as [| x a IH]; simpl; [reflexivity | now rewrite IH]. Qed.

Lemma append_nil_r (a : string) : a ++ "" = a.
Proof. induction a as [| x a IH]; simpl; [reflexivity | now rewrite IH]. Qed.

(** ** Numbers *)

Example to_string_third :
  to_string (div (of_Z 1) (of_Z 3)) = "0.3333333333333333".
Proof. vm_compute. reflexivity. Qed.

Example to_string_sum :
  to_string (add (parseFloat "0.1") (parseFloat "0.2")) = "0.30000000000000004".
Proof. vm_compute. reflexivity. Qed.

Example to_string_large : to_string (of_Z (10 ^ 21)) = "1e+21".
Proof. vm_compute. reflexivity. Qed.

Example to_string_small : to_string (div (of_Z 1) (of_Z 10000000)) = "1e-7".
Proof. vm_compute. reflexivity. Qed.

Example to_string_negative_zero : to_string (S754_zero true) = "0".
Proof. reflexivity. Qed.

Example parseFloat_longitude : parseFloat "127.0" = of_Z 127.
Proof. vm_compute. reflexivity. Qed.

Example parseFloat_prefix : to_string (parseFloat "  12.5px") = "12.5".
Proof. vm_compute. reflexivity. Qed.

Example parseFloat_undefined : parseFloat "undefined" = NaN.
Proof. vm_compute. reflexivity. Qed.

(** [number2 === 0] holds of both zeros and of nothing else. *)
Lemma strict_equal_zero (x : number) :
  strict_equal x zero = true <-> exists s, x = S754_zero s.
Proof.
  split.
  - destruct x as [s | s | | s m e]; try discriminate.
    + intros _. now exists s.
    + destruct s; discriminate.
    + destruct s; discriminate.
  - intros [s ->]. reflexivity.
Qed.

(** ** The handlers, step by step *)

Ltac unfold_handlers :=
  unfold call_tool, run, greet, calculator, time, geocode, get_weather,
    generate_image, try_catch, bind, perform, answer, ret, throw in *.

Ltac break_match :=
  match goal with
  | H : context [match ?x with _ => _ end] |- _ => destruct x eqn:?
  | |- context [match ?x with _ => _ end] => destruct x eqn:?
  end.

Ltac invert_pairs :=
  repeat match goal with
         | H : (_, _) = (_, _) |- _ => inversion H; subst; clear H
         end.

(** ** The envelope *)

(** C1. Whatever a tool call returns, the content of its structured form
    is, item for item, the content of its display form. *)
Theorem structured_content_equals_content
    (rt : Runtime) (config : option Config) (c : tool_call)
    (r : tool_result) (log : list call) :
  call_tool rt config c = (Returned r, log) ->
  sc_content (structuredContent r) = content r.
Proof.
  intros H. destruct c; unfold_handlers; cbn beta iota in H;
    repeat (break_match; try discriminate);
    invert_pairs; reflexivity.
Qed.

Lemma structured_content_equals_content_witness :
  let greeting := text_result "안녕하세요, 민수님!" in
  let image := {| content := [ImageItem "" "image/png"];
                  structuredContent := {| sc_content := [ImageItem "" "image/png"] |} |} in
  sc_content (structuredContent greeting) = content greeting /\
  sc_content (structuredContent image) = content image.
Proof.
  split.
  - apply (structured_content_equals_content (Example.runtime GeoNull) None
             (Greet "민수" ko) _ []).
    reflexivity.
  - apply (structured_content_equals_content (Example.runtime GeoNull)
             (Some {| HF_TOKEN := Some "hf_token" |}) (GenerateImage "a cat") _
             [NewInferenceClient "hf_token";
              TextToImage "auto" "black-forest-labs/FLUX.1-schnell" "a cat" 5 "blob"]).
    reflexivity.
Defined.

(** ** The calculator *)

(** C3. Whatever [number1] is, dividing by a [number2] that is zero
    throws the division-by-zero error; no result text is produced. *)
Theorem division_by_zero_throws
    (rt : Runtime) (config : option Config) (number1 number2 : number) :
  strict_equal number2 zero = true ->
  call_tool rt config (Calculator number1 number2 Divide)
  = (Threw DivisionByZeroError, []).
Proof.
  intros Hzero. unfold_handlers. rewrite Hzero. reflexivity.
Qed.

Lemma division_by_zero_throws_witness :
  call_tool (Example.runtime GeoNull) None
    (Calculator (of_Z 7) (S754_zero true) Divide)
  = (Threw DivisionByZeroError, []).
Proof.
  apply (division_by_zero_throws (Example.runtime GeoNull) None (of_Z 7)
           (S754_zero true)).
  reflexivity.
Defined.

(** C4. On every input but a division by zero, the calculator returns one
    text item, [<n1> <op> <n2> = <result>], where the result is the value
    of the arithmetic the operator names. *)
Theorem calculator_renders_expression
    (rt : Runtime) (config : option Config) (number1 number2 : number)
    (op : operator) :
  ~ (op = Divide /\ strict_equal number2 zero = true) ->
  call_tool rt config (Calculator number1 number2 op)
  = (Returned
       (text_result
          (to_string number1 ++ " " ++ operator_symbol op ++ " " ++
           to_string number2 ++ " = " ++
           to_string (declared_arithmetic op number1 number2))),
     []).
Proof.
  intros Hvalid. unfold_handlers. destruct op; try reflexivity.
  destruct (strict_equal number2 zero) eqn:Hzero.
  - exfalso. apply Hvalid. split; reflexivity.
  - reflexivity.
Qed.

Lemma calculator_renders_expression_witness :
  call_tool (Example.runtime GeoNull) None
    (Calculator (of_Z 1) (of_Z 3) Divide)
  = (Returned (text_result "1 / 3 = 0.3333333333333333"), []).
Proof.
  apply (calculator_renders_expression (Example.runtime GeoNull) None
           (of_Z 1) (of_Z 3) Divide).
  intros [_ Hzero]. discriminate Hzero.
Defined.

(** ** The clock *)

Lemma has_shape_app (p1 p2 : list shape) (s1 s2 : string) :
  has_shape p1 s1 = true -> has_shape p2 s2 = true ->
  has_shape (p1 ++ p2) (s1 ++ s2) = true.
Proof.
  revert s1. induction p1 as [| x p1 IH]; intros s1 H1 H2.
  - destruct s1; [exact H2 | discriminate H1].
  - destruct s1 as [| c s1]; [destruct x; discriminate H1 |].
    destruct x; simpl in *; apply andb_true_iff in H1 as [Hc H1];
      rewrite Hc; simpl; now apply IH.
Qed.

(** A property checked on every integer of a range holds on the range. *)
Lemma forall_range (P : Z -> bool) (lo n : Z) :
  forallb (fun k => P (lo + Z.of_nat k)) (seq 0 (Z.to_nat n)) = true ->
  forall z, lo <= z < lo + n -> P z = true.
Proof.
  intros Hall z Hz. rewrite forallb_forall in Hall.
  specialize (Hall (Z.to_nat (z - lo))).
  rewrite Z2Nat.id in Hall by lia.
  replace (lo + (z - lo)) with z in Hall by lia.
  apply Hall, in_seq. lia.
Qed.

Lemma two_digit_shape (z : Z) :
  0 <= z <= 99 -> has_shape [Digit; Digit] (two_digit z) = true.
Proof.
  intros Hz.
  apply (forall_range (fun z => has_shape [Digit; Digit] (two_digit z)) 0 100);
    [vm_compute; reflexivity | lia].
Qed.

Lemma year_shape (z : Z) :
  1000 <= z <= 9999 ->
  has_shape [Digit; Digit; Digit; Digit] (string_of_Z z) = true.
Proof.
  intros Hz.
  apply (forall_range
           (fun z => has_shape [Digit; Digit; Digit; Digit] (string_of_Z z))
           1000 9000);
    [vm_compute; reflexivity | lia].
Qed.

Lemma format_ko_KR_shape (t : civil_time) :
  civil t -> has_shape ko_KR_shape (format_ko_KR t) = true.
Proof.
  intros (Hy & Hmo & Hd & Hh & Hmi & Hs). unfold format_ko_KR.
  change ko_KR_shape with
    ([Digit; Digit; Digit; Digit] ++ [Char "."; Char " "] ++
     [Digit; Digit] ++ [Char "."; Char " "] ++
     [Digit; Digit] ++ [Char "."; Char " "] ++
     [Digit; Digit] ++ [Char ":"] ++ [Digit; Digit] ++ [Char ":"] ++
     [Digit; Digit])%list%char.
  repeat first
    [ apply two_digit_shape; lia
    | apply has_shape_app;
        [ first [ apply year_shape; lia | apply two_digit_shape; lia | reflexivity ] | ] ].
Qed.

(** C5, as the handler has it. A timezone the runtime rejects makes the
    clock throw the invalid-timezone error, whatever the runtime threw. A
    timezone it accepts, as a runtime does UTC, makes it return the
    timezone, the label and the timestamp of the Korean locale: a
    four-digit year, a full stop and a space, the two-digit month and day
    each followed by a full stop and a space, then the two-digit hour,
    minute and second of the 24-hour clock with colons between them. *)
Theorem time_renders_korean_timestamp
    (rt : Runtime) (config : option Config) (timezone : string) :
  civil_clock rt timezone ->
  match zoned_now rt timezone with
  | Threw _ =>
      call_tool rt config (Time timezone) = (Threw (InvalidTimezoneError timezone), [])
  | Returned _ =>
      exists stamp,
        call_tool rt config (Time timezone)
        = (Returned (text_result (timezone ++ "의 현재 시간: " ++ stamp)), []) /\
        has_shape ko_KR_shape stamp = true
  end.
Proof.
  unfold civil_clock. intros Hcivil. unfold_handlers.
  destruct (zoned_now rt timezone) as [t | e].
  - exists (format_ko_KR t). split; [reflexivity | now apply format_ko_KR_shape].
  - reflexivity.
Qed.

Lemma time_renders_korean_timestamp_witness :
  call_tool (Example.runtime GeoNull) None (Time "Not/AZone")
  = (Threw (InvalidTimezoneError "Not/AZone"), []) /\
  exists stamp,
    call_tool (Example.runtime GeoNull) None (Time "UTC")
    = (Returned (text_result ("UTC" ++ "의 현재 시간: " ++ stamp)), []) /\
    has_shape ko_KR_shape stamp = true.
Proof.
  split.
  - apply (time_renders_korean_timestamp (Example.runtime GeoNull) None "Not/AZone").
    exact I.
  - apply (time_renders_korean_timestamp (Example.runtime GeoNull) None "UTC").
    unfold civil_clock, civil; simpl; lia.
Defined.

(** C5 as the specification words it fails: for UTC the timestamp has a
    full stop where the hyphen is claimed, and no hyphen at all. *)
Lemma time_utc_stamp_has_no_hyphen :
  call_tool (Example.runtime GeoNull) None (Time "UTC")
  = (Returned (text_result ("UTC" ++ "의 현재 시간: " ++ "2025. 12. 15. 09:05:07")), []) /\
  year_then_hyphen "2025. 12. 15. 09:05:07" = false /\
  includes "-" "2025. 12. 15. 09:05:07" = false.
Proof. repeat split; reflexivity. Qed.

(** ** Failures *)




(** ** The geocoder *)

Lemma Contains_intro (pre sub post : string) : Contains sub (pre ++ sub ++ post).
Proof. exists pre, post. reflexivity. Qed.

Ltac contains pre post :=
  exists pre, post; rewrite ?append_assoc; reflexivity.

(** What the geocoder does on a reply of success carrying an array. *)
Lemma geocode_on_results
    (rt : Runtime) (config : option Config) (query : string)
    (reply : response geo_json) (results : list place) :
  fetch_geocoding rt (geocode_url rt query) geocode_headers = Returned reply ->
  ok reply = true ->
  json reply = Returned (GeoArray results) ->
  call_tool rt config (Geocode query)
  = (Returned
       (text_result
          match results with
          | [] => no_results_message query
          | result :: _ =>
              place_message (or_else (display_name result) query)
                (parseFloat (or_else_undefined (lat result)))
                (parseFloat (or_else_undefined (lon result)))
          end),
     [Fetch (geocode_url rt query) geocode_headers]).
Proof.
  intros Hfetch Hok Hjson. unfold_handlers.
  unfold geocode_url, geocode_headers in Hfetch. rewrite Hfetch, Hok. simpl negb.
  cbv iota. rewrite Hjson. destruct results; reflexivity.
Qed.

(** C6. When the upstream call succeeds with an empty array, the geocoder
    returns the no-results message, which contains the query. When the
    first element of the array has [lat], [lon] and [display_name], the
    message returned contains the parsed latitude, the parsed longitude
    and the display name. *)
Theorem geocode_reports_results
    (rt : Runtime) (config : option Config) (query : string)
    (reply : response geo_json) (results : list place) :
  fetch_geocoding rt (geocode_url rt query) geocode_headers = Returned reply ->
  ok reply = true ->
  json reply = Returned (GeoArray results) ->
  exists text,
    call_tool rt config (Geocode query)
    = (Returned (text_result text), [Fetch (geocode_url rt query) geocode_headers]) /\
    match results with
    | [] => text = no_results_message query /\ Contains query text
    | result :: _ =>
        forall latitude longitude address,
          lat result = Some latitude ->
          lon result = Some longitude ->
          display_name result = Some address ->
          Contains (to_string (parseFloat latitude)) text /\
          Contains (to_string (parseFloat longitude)) text /\
          Contains address text
    end.
Proof.
  intros Hfetch Hok Hjson. eexists. split.
  - eapply geocode_on_results; eassumption.
  - destruct results as [| result rest].
    + split; [reflexivity |]. apply (Contains_intro dquote).
    + intros latitude longitude address Hlat Hlon Hname.
      rewrite Hlat, Hlon, Hname. unfold place_message. simpl or_else_undefined.
      repeat split.
      * contains ("주소: " ++ or_else (Some address) query ++ LF ++ "위도: ")
                 (LF ++ "경도: " ++ to_string (parseFloat longitude) ++ LF ++
                  "좌표: (" ++ to_string (parseFloat latitude) ++ ", " ++
                  to_string (parseFloat longitude) ++ ")").
      * contains ("주소: " ++ or_else (Some address) query ++ LF ++ "위도: " ++
                  to_string (parseFloat latitude) ++ LF ++ "경도: ")
                 (LF ++ "좌표: (" ++ to_string (parseFloat latitude) ++ ", " ++
                  to_string (parseFloat longitude) ++ ")").
      * destruct address as [| a address].
        -- exists "", (place_message query (parseFloat latitude) (parseFloat longitude)).
           reflexivity.
        -- apply (Contains_intro "주소: ").
Qed.

Lemma geocode_reports_results_witness :
  (exists text,
      call_tool (Example.runtime (GeoArray [])) None (Geocode "Atlantis")
      = (Returned (text_result text),
         [Fetch (geocode_url (Example.runtime (GeoArray [])) "Atlantis") geocode_headers]) /\
      text = no_results_message "Atlantis" /\ Contains "Atlantis" text) /\
  (exists text,
      call_tool (Example.runtime (GeoArray [Example.seoul])) None (Geocode "Seoul")
      = (Returned (text_result text),
         [Fetch (geocode_url (Example.runtime (GeoArray [Example.seoul])) "Seoul")
                geocode_headers]) /\
      Contains "37.5" text /\ Contains "127" text /\ Contains "Seoul" text).
Proof.
  split.
  - apply (geocode_reports_results (Example.runtime (GeoArray [])) None "Atlantis"
             _ [] eq_refl eq_refl eq_refl).
  - destruct (geocode_reports_results (Example.runtime (GeoArray [Example.seoul]))
                None "Seoul" _ [Example.seoul] eq_refl eq_refl eq_refl)
      as (text & Hcall & Hin).
    exists text. split; [exact Hcall |].
    exact (Hin "37.5" "127.0" "Seoul" eq_refl eq_refl eq_refl).
Defined.

(** C10. When the first element of a non-empty result array has no
    display name, the field absent or the empty string, the geocoder
    still returns, with the query on the address line and the parsed
    latitude and longitude as they are. *)
Theorem geocode_falls_back_to_query
    (rt : Runtime) (config : option Config) (query : string)
    (reply : response geo_json) (result : place) (rest : list place) :
  fetch_geocoding rt (geocode_url rt query) geocode_headers = Returned reply ->
  ok reply = true ->
  json reply = Returned (GeoArray (result :: rest)) ->
  display_name result = None \/ display_name result = Some "" ->
  call_tool rt config (Geocode query)
  = (Returned
       (text_result
          ("주소: " ++ query ++ LF ++
           "위도: " ++ to_string (parseFloat (or_else_undefined (lat result))) ++ LF ++
           "경도: " ++ to_string (parseFloat (or_else_undefined (lon result))) ++ LF ++
           "좌표: (" ++ to_string (parseFloat (or_else_undefined (lat result))) ++ ", " ++
           to_string (parseFloat (or_else_undefined (lon result))) ++ ")")),
     [Fetch (geocode_url rt query) geocode_headers]).
Proof.
  intros Hfetch Hok Hjson Hname.
  rewrite (geocode_on_results rt config query reply (result :: rest) Hfetch Hok Hjson).
  destruct Hname as [-> | ->]; reflexivity.
Qed.

Lemma geocode_falls_back_to_query_witness :
  call_tool (Example.runtime (GeoArray [Example.unnamed])) None (Geocode "Seoul")
  = (Returned
       (text_result
          ("주소: " ++ "Seoul" ++ LF ++ "위도: " ++ "37.5" ++ LF ++ "경도: " ++ "127" ++ LF ++
           "좌표: (" ++ "37.5" ++ ", " ++ "127" ++ ")")),
     [Fetch (geocode_url (Example.runtime (GeoArray [Example.unnamed])) "Seoul")
            geocode_headers]).
Proof.
  apply (geocode_falls_back_to_query (Example.runtime (GeoArray [Example.unnamed]))
           None "Seoul" _ Example.unnamed [] eq_refl eq_refl eq_refl).
  left. reflexivity.
Defined.

(** ** The image generator *)

(** C8. With no credential in the configuration, the image generator
    throws the missing-credential error and has issued no call: no
    inference client was constructed and no request sent. *)
Theorem generate_image_needs_credential
    (rt : Runtime) (config : option Config) (prompt : string) :
  credential config = None ->
  call_tool rt config (GenerateImage prompt) = (Threw MissingCredentialError, []).
Proof.
  intros Habsent. unfold_handlers. unfold credential in Habsent.
  rewrite Habsent. reflexivity.
Qed.

Lemma generate_image_needs_credential_witness :
  call_tool (Example.runtime GeoNull) (Some {| HF_TOKEN := None |})
    (GenerateImage "a cat")
  = (Threw MissingCredentialError, []) /\
  call_tool (Example.runtime GeoNull) None (GenerateImage "a cat")
  = (Threw MissingCredentialError, []).
Proof.
  split.
  - apply (generate_image_needs_credential (Example.runtime GeoNull)
             (Some {| HF_TOKEN := None |}) "a cat").
    reflexivity.
  - apply (generate_image_needs_credential (Example.runtime GeoNull) None "a cat").
    reflexivity.
Defined.

(** ** The weather forecaster *)

Lemma concat_snoc (sep : string) (l : list string) (x : string) :
  l <> [] -> String.concat sep (l ++ [x]) = String.concat sep l ++ sep ++ x.
Proof.
  induction l as [| a l IH]; intros Hne; [now elim Hne |].
  destruct l as [| b l].
  - reflexivity.
  - change (String.concat sep ((a :: b :: l) ++ [x]))
      with (a ++ sep ++ String.concat sep ((b :: l) ++ [x])).
    rewrite IH by discriminate.
    change (String.concat sep (a :: b :: l))
      with (a ++ sep ++ String.concat sep (b :: l)).
    rewrite !append_assoc. reflexivity.
Qed.

Section DailyLoop.

Variable rt : Runtime.
Variable d : daily_json.
Variable times : list string.
Variable bound : Z.

(** One turn of the loop appends the block of its day, and a line feed
    unless the day is the last. *)
Lemma daily_body_block (i : nat) (resultText : string) :
  daily_body rt times
    (or_empty (temperature_2m_max d)) (or_empty (temperature_2m_min d))
    (or_empty (precipitation_sum d)) (or_empty (daily_weather_code d)) bound
    i resultText
  = resultText ++ day_block rt d times i ++
    (if Z.of_nat i <? bound - 1 then LF else "").
Proof.
  unfold daily_body, day_block.
  destruct (Z.of_nat i <? bound - 1);
    rewrite ?append_assoc, ?append_nil_r; reflexivity.
Qed.

(** After [k] turns, [k] blocks stand behind the text the loop started
    from, a line feed between two of them and one after the last while
    turns remain. *)
Lemma daily_loop_prefix (k : nat) (resultText : string) :
  Z.of_nat k <= bound ->
  for_loop k
    (daily_body rt times
       (or_empty (temperature_2m_max d)) (or_empty (temperature_2m_min d))
       (or_empty (precipitation_sum d)) (or_empty (daily_weather_code d)) bound)
    resultText
  = resultText ++ String.concat LF (map (day_block rt d times) (seq 0 k)) ++
    (if (0 <? Z.of_nat k) && (Z.of_nat k <? bound) then LF else "").
Proof.
  unfold for_loop. induction k as [| k IH]; intros Hk.
  - simpl. now rewrite append_nil_r.
  - rewrite seq_S, fold_left_app, map_app. simpl fold_left. simpl map.
    rewrite IH by lia. rewrite daily_body_block.
    replace (Z.of_nat k <? bound) with true by (symmetry; apply Z.ltb_lt; lia).
    replace (0 <? Z.of_nat (S k)) with true by (symmetry; apply Z.ltb_lt; lia).
    replace (Z.of_nat (S k) <? bound) with (Z.of_nat k <? bound - 1)
      by (destruct (Z.ltb_spec (Z.of_nat k) (bound - 1));
          symmetry; [apply Z.ltb_lt | apply Z.ltb_ge]; lia).
    rewrite andb_true_r. simpl andb.
    destruct k as [| k].
    + simpl. rewrite ?append_assoc. reflexivity.
    + replace (0 <? Z.of_nat (S k)) with true by (symmetry; apply Z.ltb_lt; lia).
      rewrite concat_snoc by (rewrite <- cons_seq; discriminate).
      rewrite ?append_assoc. reflexivity.
Qed.

End DailyLoop.

(** C7. A successful weather call whose horizon is [f] days, on a reply
    carrying [daily.time] of [d] entries, renders the current conditions,
    the heading of the forecast, and then exactly [min f d] day blocks,
    those of the days [0] to [min f d - 1]. *)
Theorem weather_renders_min_blocks
    (rt : Runtime) (config : option Config) (latitude longitude : number)
    (forecast_days : option Z) (reply : response forecast_json)
    (data : forecast_json) (d : daily_json) (times : list string) :
  fetch_forecast rt (forecast_url rt latitude longitude (horizon forecast_days))
  = Returned reply ->
  ok reply = true ->
  json reply = Returned data ->
  error data = false ->
  daily data = Some d ->
  daily_time d = Some times ->
  0 <= horizon forecast_days ->
  exists blocks,
    call_tool rt config (GetWeather latitude longitude forecast_days)
    = (Returned
         (text_result
            (current_weather_text latitude longitude (horizon forecast_days) data ++
             daily_heading (horizon forecast_days) ++
             String.concat LF blocks)),
       [Fetch (forecast_url rt latitude longitude (horizon forecast_days)) []]) /\
    Z.of_nat (length blocks) = Z.min (horizon forecast_days) (Z.of_nat (length times)) /\
    blocks = map (day_block rt d times) (seq 0 (length blocks)).
Proof.
  intros Hfetch Hok Hjson Herror Hdaily Htimes Hf.
  set (f := horizon forecast_days) in *.
  set (n := Z.to_nat (Z.min f (Z.of_nat (length times)))).
  exists (map (day_block rt d times) (seq 0 n)).
  rewrite length_map, length_seq. repeat split.
  - unfold_handlers. fold (horizon forecast_days). fold f.
    unfold forecast_url in Hfetch. rewrite Hfetch, Hok. simpl negb. cbv iota.
    rewrite Hjson, Herror. unfold weather_text. rewrite Hdaily, Htimes.
    cbv zeta. fold n.
    rewrite daily_loop_prefix by (unfold n; lia).
    replace (Z.of_nat n <? Z.min f (Z.of_nat (length times))) with false
      by (symmetry; apply Z.ltb_ge; unfold n; lia).
    rewrite andb_false_r. unfold daily_heading, text_result.
    rewrite ?append_assoc, ?append_nil_r. reflexivity.
  - unfold n. lia.
Qed.

Lemma weather_renders_min_blocks_witness :
  exists blocks,
    call_tool (Example.runtime GeoNull) None
      (GetWeather (of_Z 37) (of_Z 127) (Some 3))
    = (Returned
         (text_result
            (current_weather_text (of_Z 37) (of_Z 127) 3 Example.ten_days ++
             daily_heading 3 ++ String.concat LF blocks)),
       [Fetch (forecast_url (Example.runtime GeoNull) (of_Z 37) (of_Z 127) 3) []]) /\
    Z.of_nat (length blocks) = 3 /\
    blocks = map (day_block (Example.runtime GeoNull) Example.ten_daily Example.dates)
                 (seq 0 (length blocks)).
Proof.
  apply (weather_renders_min_blocks (Example.runtime GeoNull) None
           (of_Z 37) (of_Z 127) (Some 3) _ Example.ten_days _ _
           eq_refl eq_refl eq_refl eq_refl eq_refl eq_refl).
  simpl. lia.
Defined.

(** ** The introspection resource *)

(** C9, on the listing as written. The listing has the six registered
    tools, in registration order, with their descriptions and parameter
    names, and advertises nothing the contracts do not declare; of the
    constraints the contracts declare it leaves one out: that
    [forecast_days] of [get-weather] is an integer. *)
Theorem server_info_omits_integer_constraint (now : string) :
  length (tools (serverInfo now)) = length registered_tools /\
  totalTools (serverInfo now) = Z.of_nat (length registered_tools) /\
  totalTools (serverInfo now) = 6 /\
  map name (tools (serverInfo now)) = map reg_name registered_tools /\
  map description (tools (serverInfo now)) = map reg_description registered_tools /\
  map (fun l => map fst (parameters l)) (tools (serverInfo now))
  = map (fun r => map fst (inputSchema r)) registered_tools /\
  listing_extras now = [] /\
  listing_gaps now = [("get-weather", "forecast_days", CInteger)].
Proof. repeat split; vm_compute; reflexivity. Qed.

(** * Further properties of the handlers *)

(** ** What each tool does on the network *)

(** X1. Whatever the outside answers, the greeting, the calculator and
    the clock make no call; the geocoder makes one request, to its search
    URL with the client-identifying header; the weather forecaster makes
    one request, to its forecast URL with no header; the image generator
    makes no call without a credential, and otherwise constructs one
    client and sends one text-to-image request. No tool repeats a call. *)
Theorem calls_of_tool (rt : Runtime) (config : option Config) (c : tool_call) :
  snd (call_tool rt config c)
  = match c with
    | Greet _ _ | Calculator _ _ _ | Time _ => []
    | Geocode query => [Fetch (geocode_url rt query) geocode_headers]
    | GetWeather latitude longitude forecast_days =>
        [Fetch (forecast_url rt latitude longitude (horizon forecast_days)) []]
    | GenerateImage prompt =>
        match credential config with
        | Some (String c s) => inference_calls (String c s) prompt
        | _ => []
        end
    end.
Proof.
  destruct c; unfold_handlers; unfold credential, geocode_url, forecast_url,
    geocode_headers, horizon, inference_calls;
    cbn beta iota; repeat (break_match; try discriminate);
    invert_pairs; try discriminate; reflexivity.
Qed.

(** X2. What a tool returns is one content item, of the type its output
    schema declares: an image for the image generator, a text for the
    other five. *)
Theorem returns_one_item_of_declared_type
    (rt : Runtime) (config : option Config) (c : tool_call)
    (r : tool_result) (log : list call) :
  call_tool rt config c = (Returned r, log) ->
  exists item,
    content r = [item] /\
    assoc (tool_name c) outputSchema_item_types = Some (item_type item).
Proof.
  intros H. destruct c; unfold_handlers; cbn beta iota in H;
    repeat (break_match; try discriminate);
    invert_pairs; eexists; split; reflexivity.
Qed.

Lemma returns_one_item_of_declared_type_witness :
  exists item,
    content (image_result "AAAA" "image/png") = [item] /\
    Some "image" = Some (item_type item).
Proof.
  apply (returns_one_item_of_declared_type
           (Scenario.runtime Scenario.unreachable Scenario.unreachable
              (Returned [Byte.x00; Byte.x01]))
           (Some {| HF_TOKEN := Some "hf_token" |}) (GenerateImage "a cat") _
           (inference_calls "hf_token" "a cat")).
  reflexivity.
Defined.

(** ** The geocoder on other replies *)

(** X3. On a reply that is not a success the geocoder throws, naming its
    operation, the status and the status text; the body is not read. *)
Theorem geocode_http_failure
    (rt : Runtime) (config : option Config) (query : string)
    (reply : response geo_json) :
  fetch_geocoding rt (geocode_url rt query) geocode_headers = Returned reply ->
  ok reply = false ->
  call_tool rt config (Geocode query)
  = (Threw (JsError ("지오코딩 실패: " ++ "API 요청 실패: " ++
                     string_of_Z (status reply) ++ " " ++ statusText reply)),
     [Fetch (geocode_url rt query) geocode_headers]).
Proof.
  intros Hfetch Hok. unfold_handlers.
  unfold geocode_url, geocode_headers in Hfetch. rewrite Hfetch, Hok. reflexivity.
Qed.

Lemma geocode_http_failure_witness :
  call_tool (Scenario.runtime (Scenario.not_found GeoNull) Scenario.unreachable
               (Returned []))
    None (Geocode "Seoul")
  = (Threw (JsError "지오코딩 실패: API 요청 실패: 404 Not Found"),
     [Fetch "https://nominatim.openstreetmap.org/search?q=Seoul&format=json&limit=1&addressdetails=1"
            [("User-Agent", "MCP-Geocode-Tool/1.0")]]).
Proof.
  apply (geocode_http_failure
           (Scenario.runtime (Scenario.not_found GeoNull) Scenario.unreachable
              (Returned []))
           None "Seoul" _ eq_refl eq_refl).
Defined.

(** X4. When the request itself throws, or the body of a successful reply
    cannot be read, the geocoder throws its operation followed by the
    message of what was thrown, or by the unknown-error text when that
    was no [Error]. *)
Theorem geocode_wraps_thrown
    (rt : Runtime) (config : option Config) (query : string) (e : thrown) :
  fetch_geocoding rt (geocode_url rt query) geocode_headers = Threw e \/
  (exists reply,
      fetch_geocoding rt (geocode_url rt query) geocode_headers = Returned reply /\
      ok reply = true /\ json reply = Threw e) ->
  call_tool rt config (Geocode query)
  = (Threw (JsError ("지오코딩 실패: " ++ error_message e)),
     [Fetch (geocode_url rt query) geocode_headers]).
Proof.
  unfold geocode_url, geocode_headers.
  intros [Hfetch | (reply & Hfetch & Hok & Hjson)]; unfold_handlers;
    rewrite Hfetch; [| rewrite Hok; simpl negb; cbv iota; rewrite Hjson];
    reflexivity.
Qed.

Lemma geocode_wraps_thrown_witness :
  call_tool (Scenario.runtime (Threw NonError) Scenario.unreachable (Returned []))
    None (Geocode "Seoul")
  = (Threw (JsError "지오코딩 실패: 알 수 없는 오류가 발생했습니다."),
     [Fetch (geocode_url (Scenario.runtime (Threw NonError) Scenario.unreachable
                            (Returned [])) "Seoul")
            geocode_headers]).
Proof.
  apply (geocode_wraps_thrown
           (Scenario.runtime (Threw NonError) Scenario.unreachable (Returned []))
           None "Seoul" NonError).
  left. reflexivity.
Defined.

(** X5. A successful reply whose body is [null] is answered like an empty
    array: with the no-results message. *)
Theorem geocode_null_body
    (rt : Runtime) (config : option Config) (query : string)
    (reply : response geo_json) :
  fetch_geocoding rt (geocode_url rt query) geocode_headers = Returned reply ->
  ok reply = true ->
  json reply = Returned GeoNull ->
  call_tool rt config (Geocode query)
  = (Returned (text_result (no_results_message query)),
     [Fetch (geocode_url rt query) geocode_headers]).
Proof.
  intros Hfetch Hok Hjson. unfold_handlers.
  unfold geocode_url, geocode_headers in Hfetch. rewrite Hfetch, Hok. simpl negb.
  cbv iota. rewrite Hjson. reflexivity.
Qed.

Lemma geocode_null_body_witness :
  call_tool (Scenario.runtime (Scenario.found GeoNull) Scenario.unreachable
               (Returned []))
    None (Geocode "Atlantis")
  = (Returned (text_result (no_results_message "Atlantis")),
     [Fetch (geocode_url (Scenario.runtime (Scenario.found GeoNull)
                            Scenario.unreachable (Returned [])) "Atlantis")
            geocode_headers]).
Proof.
  apply (geocode_null_body
           (Scenario.runtime (Scenario.found GeoNull) Scenario.unreachable
              (Returned []))
           None "Atlantis" _ eq_refl eq_refl eq_refl).
Defined.

(** X6. A first result without coordinates is not rejected: the geocoder
    returns its message with [NaN] for the latitude and the longitude. *)
Theorem geocode_missing_coordinates
    (rt : Runtime) (config : option Config) (query : string)
    (reply : response geo_json) (result : place) (rest : list place) :
  fetch_geocoding rt (geocode_url rt query) geocode_headers = Returned reply ->
  ok reply = true ->
  json reply = Returned (GeoArray (result :: rest)) ->
  lat result = None ->
  lon result = None ->
  call_tool rt config (Geocode query)
  = (Returned
       (text_result
          ("주소: " ++ or_else (display_name result) query ++ LF ++
           "위도: " ++ "NaN" ++ LF ++ "경도: " ++ "NaN" ++ LF ++
           "좌표: (" ++ "NaN" ++ ", " ++ "NaN" ++ ")")),
     [Fetch (geocode_url rt query) geocode_headers]).
Proof.
  intros Hfetch Hok Hjson Hlat Hlon.
  rewrite (geocode_on_results rt config query reply (result :: rest) Hfetch Hok Hjson).
  rewrite Hlat, Hlon. reflexivity.
Qed.

Lemma geocode_missing_coordinates_witness :
  call_tool (Scenario.runtime (Scenario.found (GeoArray [Scenario.nowhere]))
               Scenario.unreachable (Returned []))
    None (Geocode "x")
  = (Returned
       (text_result
          ("주소: " ++ "Nowhere" ++ LF ++ "위도: " ++ "NaN" ++ LF ++ "경도: " ++ "NaN" ++ LF ++
           "좌표: (" ++ "NaN" ++ ", " ++ "NaN" ++ ")")),
     [Fetch (geocode_url (Scenario.runtime (Scenario.found (GeoArray [Scenario.nowhere]))
                            Scenario.unreachable (Returned [])) "x")
            geocode_headers]).
Proof.
  apply (geocode_missing_coordinates
           (Scenario.runtime (Scenario.found (GeoArray [Scenario.nowhere]))
              Scenario.unreachable (Returned []))
           None "x" _ Scenario.nowhere [] eq_refl eq_refl eq_refl eq_refl eq_refl).
Defined.

(** ** The weather forecaster on other replies *)

(** X7. On a reply that is not a success the weather forecaster throws,
    naming its operation, the status and the status text. *)
Theorem weather_http_failure
    (rt : Runtime) (config : option Config) (latitude longitude : number)
    (forecast_days : option Z) (reply : response forecast_json) :
  fetch_forecast rt (forecast_url rt latitude longitude (horizon forecast_days))
  = Returned reply ->
  ok reply = false ->
  call_tool rt config (GetWeather latitude longitude forecast_days)
  = (Threw (JsError ("날씨 정보 조회 실패: " ++ "API 요청 실패: " ++
                     string_of_Z (status reply) ++ " " ++ statusText reply)),
     [Fetch (forecast_url rt latitude longitude (horizon forecast_days)) []]).
Proof.
  intros Hfetch Hok. unfold_handlers. fold (horizon forecast_days).
  unfold forecast_url in Hfetch. rewrite Hfetch, Hok. reflexivity.
Qed.

Lemma weather_http_failure_witness :
  call_tool (Scenario.runtime Scenario.unreachable
               (Scenario.not_found Scenario.no_forecast) (Returned []))
    None (GetWeather (of_Z 37) (of_Z 127) None)
  = (Threw (JsError "날씨 정보 조회 실패: API 요청 실패: 404 Not Found"),
     [Fetch (forecast_url (Scenario.runtime Scenario.unreachable
                             (Scenario.not_found Scenario.no_forecast) (Returned []))
                          (of_Z 37) (of_Z 127) 7) []]).
Proof.
  apply (weather_http_failure
           (Scenario.runtime Scenario.unreachable
              (Scenario.not_found Scenario.no_forecast) (Returned []))
           None (of_Z 37) (of_Z 127) None _ eq_refl eq_refl).
Defined.

(** X8. When a successful reply declares an error, the weather forecaster
    throws its operation followed by the reason the reply gives, or by
    the unknown-error text when the reply gives none or an empty one. *)
Theorem weather_declared_error
    (rt : Runtime) (config : option Config) (latitude longitude : number)
    (forecast_days : option Z) (reply : response forecast_json)
    (data : forecast_json) :
  fetch_forecast rt (forecast_url rt latitude longitude (horizon forecast_days))
  = Returned reply ->
  ok reply = true ->
  json reply = Returned data ->
  error data = true ->
  call_tool rt config (GetWeather latitude longitude forecast_days)
  = (Threw (JsError ("날씨 정보 조회 실패: " ++
                     match reason data with
                     | None | Some EmptyString => "알 수 없는 오류가 발생했습니다."
                     | Some given => given
                     end)),
     [Fetch (forecast_url rt latitude longitude (horizon forecast_days)) []]).
Proof.
  intros Hfetch Hok Hjson Herror. unfold_handlers. fold (horizon forecast_days).
  unfold forecast_url in Hfetch. rewrite Hfetch, Hok. simpl negb. cbv iota.
  rewrite Hjson, Herror. destruct (reason data) as [[| c s] |]; reflexivity.
Qed.

Lemma weather_declared_error_witness :
  call_tool (Scenario.runtime Scenario.unreachable
               (Scenario.found Scenario.refused) (Returned []))
    None (GetWeather (of_Z 100) (of_Z 127) (Some 3))
  = (Threw (JsError ("날씨 정보 조회 실패: " ++ "Latitude must be in range of -90 to 90°.")),
     [Fetch (forecast_url (Scenario.runtime Scenario.unreachable
                             (Scenario.found Scenario.refused) (Returned []))
                          (of_Z 100) (of_Z 127) 3) []]).
Proof.
  apply (weather_declared_error
           (Scenario.runtime Scenario.unreachable
              (Scenario.found Scenario.refused) (Returned []))
           None (of_Z 100) (of_Z 127) (Some 3) _ Scenario.refused
           eq_refl eq_refl eq_refl eq_refl).
Defined.

(** X22. When the request itself throws, or the body of a successful
    reply cannot be read, the weather forecaster throws its operation
    followed by the message of what was thrown, or by the unknown-error
    text when that was no [Error]. *)
Theorem weather_wraps_thrown
    (rt : Runtime) (config : option Config) (latitude longitude : number)
    (forecast_days : option Z) (e : thrown) :
  fetch_forecast rt (forecast_url rt latitude longitude (horizon forecast_days))
  = Threw e \/
  (exists reply,
      fetch_forecast rt (forecast_url rt latitude longitude (horizon forecast_days))
      = Returned reply /\
      ok reply = true /\ json reply = Threw e) ->
  call_tool rt config (GetWeather latitude longitude forecast_days)
  = (Threw (JsError ("날씨 정보 조회 실패: " ++ error_message e)),
     [Fetch (forecast_url rt latitude longitude (horizon forecast_days)) []]).
Proof.
  unfold forecast_url.
  intros [Hfetch | (reply & Hfetch & Hok & Hjson)]; unfold_handlers;
    fold (horizon forecast_days); rewrite Hfetch;
    [| rewrite Hok; simpl negb; cbv iota; rewrite Hjson];
    reflexivity.
Qed.

Lemma weather_wraps_thrown_witness :
  call_tool (Scenario.runtime Scenario.unreachable Scenario.unreachable (Returned []))
    None (GetWeather (of_Z 37) (of_Z 127) None)
  = (Threw (JsError ("날씨 정보 조회 실패: " ++ "fetch failed")),
     [Fetch (forecast_url (Scenario.runtime Scenario.unreachable Scenario.unreachable
                             (Returned []))
                          (of_Z 37) (of_Z 127) 7) []]).
Proof.
  apply (weather_wraps_thrown
           (Scenario.runtime Scenario.unreachable Scenario.unreachable (Returned []))
           None (of_Z 37) (of_Z 127) None (JsError "fetch failed")).
  left. reflexivity.
Defined.

(** What the weather forecaster returns on a successful reply that
    declares no error. *)
Lemma get_weather_on_data
    (rt : Runtime) (config : option Config) (latitude longitude : number)
    (forecast_days : option Z) (reply : response forecast_json)
    (data : forecast_json) :
  fetch_forecast rt (forecast_url rt latitude longitude (horizon forecast_days))
  = Returned reply ->
  ok reply = true ->
  json reply = Returned data ->
  error data = false ->
  call_tool rt config (GetWeather latitude longitude forecast_days)
  = (Returned (text_result
                 (weather_text rt latitude longitude (horizon forecast_days) data)),
     [Fetch (forecast_url rt latitude longitude (horizon forecast_days)) []]).
Proof.
  intros Hfetch Hok Hjson Herror. unfold_handlers. fold (horizon forecast_days).
  unfold forecast_url in Hfetch. rewrite Hfetch, Hok. simpl negb. cbv iota.
  rewrite Hjson, Herror. reflexivity.
Qed.

(** X9. A reply without [daily], or whose [daily] has no [time], gets the
    current conditions only: no forecast heading and no day block. *)
Theorem weather_without_daily
    (rt : Runtime) (config : option Config) (latitude longitude : number)
    (forecast_days : option Z) (reply : response forecast_json)
    (data : forecast_json) :
  fetch_forecast rt (forecast_url rt latitude longitude (horizon forecast_days))
  = Returned reply ->
  ok reply = true ->
  json reply = Returned data ->
  error data = false ->
  daily data = None \/ (exists d, daily data = Some d /\ daily_time d = None) ->
  call_tool rt config (GetWeather latitude longitude forecast_days)
  = (Returned (text_result
                 (current_weather_text latitude longitude (horizon forecast_days) data)),
     [Fetch (forecast_url rt latitude longitude (horizon forecast_days)) []]).
Proof.
  intros Hfetch Hok Hjson Herror Hdaily.
  rewrite (get_weather_on_data rt config latitude longitude forecast_days reply data
             Hfetch Hok Hjson Herror).
  unfold weather_text.
  destruct Hdaily as [-> | (d & -> & ->)]; reflexivity.
Qed.

Lemma weather_without_daily_witness :
  call_tool (Scenario.runtime Scenario.unreachable
               (Scenario.found Scenario.no_forecast) (Returned []))
    None (GetWeather (of_Z 37) (of_Z 127) None)
  = (Returned (text_result
                 (current_weather_text (of_Z 37) (of_Z 127) 7 Scenario.no_forecast)),
     [Fetch (forecast_url (Scenario.runtime Scenario.unreachable
                             (Scenario.found Scenario.no_forecast) (Returned []))
                          (of_Z 37) (of_Z 127) 7) []]).
Proof.
  apply (weather_without_daily
           (Scenario.runtime Scenario.unreachable
              (Scenario.found Scenario.no_forecast) (Returned []))
           None (of_Z 37) (of_Z 127) None _ Scenario.no_forecast
           eq_refl eq_refl eq_refl eq_refl).
  left. reflexivity.
Defined.

(** The current conditions line by line: the head, then a line for each of
    temperature, humidity, wind and condition whose first sample is not
    [undefined], then an empty line. *)
Lemma current_weather_lines
    (latitude longitude : number) (forecast_days : Z) (data : forecast_json) :
  current_weather_text latitude longitude forecast_days data
  = report_head latitude longitude forecast_days
      (or_else (match hourly data with
                | Some h => match hourly_time h with
                            | Some t => nth_error t 0
                            | None => None
                            end
                | None => None
                end) "현재") ++
    sample_line "온도: " (first_sample (hourly data) temperature_2m) "°C" ++
    sample_line "습도: " (first_sample (hourly data) relative_humidity_2m) "%" ++
    sample_line "풍속: " (first_sample (hourly data) wind_speed_10m) " km/h" ++
    condition_line (first_sample (hourly data) hourly_weather_code) ++ LF.
Proof.
  unfold current_weather_text, report_head, sample_line, condition_line.
  cbv zeta.
  destruct (defined (first_sample (hourly data) temperature_2m));
    destruct (defined (first_sample (hourly data) relative_humidity_2m));
    destruct (defined (first_sample (hourly data) wind_speed_10m));
    destruct (defined (first_sample (hourly data) hourly_weather_code));
    cbv iota; rewrite ?append_assoc; reflexivity.
Qed.

(** X10. Without hourly data the current conditions are the position,
    the horizon and a heading that reads the fallback label for the time,
    with no line for temperature, humidity, wind or condition. *)
Theorem current_weather_without_hourly
    (latitude longitude : number) (forecast_days : Z) (data : forecast_json) :
  hourly data = None ->
  current_weather_text latitude longitude forecast_days data
  = "📍 위치: 위도 " ++ to_string latitude ++ ", 경도 " ++ to_string longitude ++ LF ++
    "⏰ 예보 기간: " ++ string_of_Z forecast_days ++ "일" ++ LF ++ LF ++
    "🌤️ 현재 날씨 (" ++ "현재" ++ ")" ++ LF ++ rule ++ LF ++ LF.
Proof.
  intros Hhourly. rewrite current_weather_lines, Hhourly.
  unfold report_head. cbv beta iota delta [first_sample sample_line condition_line defined or_else].
  rewrite ?append_assoc. reflexivity.
Qed.

Lemma current_weather_without_hourly_witness :
  current_weather_text (of_Z 37) (of_Z 127) 7 Scenario.no_forecast
  = "📍 위치: 위도 " ++ "37" ++ ", 경도 " ++ "127" ++ LF ++
    "⏰ 예보 기간: " ++ "7" ++ "일" ++ LF ++ LF ++
    "🌤️ 현재 날씨 (" ++ "현재" ++ ")" ++ LF ++ rule ++ LF ++ LF.
Proof.
  apply (current_weather_without_hourly (of_Z 37) (of_Z 127) 7 Scenario.no_forecast).
  reflexivity.
Defined.

(** X11. A first hourly temperature that is [null] is not left out: it
    is not [undefined], so its line is written, reading [null]. *)
Theorem current_weather_null_temperature
    (latitude longitude : number) (forecast_days : Z) (data : forecast_json)
    (h : hourly_json) (rest : series) :
  hourly data = Some h ->
  temperature_2m h = Some (None :: rest) ->
  Contains ("온도: " ++ "null" ++ "°C" ++ LF)
    (current_weather_text latitude longitude forecast_days data).
Proof.
  intros Hhourly Htemp. rewrite current_weather_lines, Hhourly.
  unfold first_sample at 1. rewrite Htemp.
  change (sample_line "온도: " (index (None :: rest) 0) "°C")
    with ("온도: " ++ "null" ++ "°C" ++ LF).
  apply Contains_intro.
Qed.

Lemma current_weather_null_temperature_witness :
  Contains ("온도: " ++ "null" ++ "°C" ++ LF)
    (current_weather_text (of_Z 37) (of_Z 127) 7 Scenario.null_sample).
Proof.
  apply (current_weather_null_temperature (of_Z 37) (of_Z 127) 7
           Scenario.null_sample _ [] eq_refl eq_refl).
Defined.

(** X12. A day past the end of the daily series of the reply, or of
    series the reply leaves out, still gets its block: the turn of the
    loop writes [undefined] for each value and for the condition code. *)
Theorem daily_body_missing_samples
    (rt : Runtime) (times : list string)
    (maxTemps minTemps precipitations codes : series) (bound : Z)
    (i : nat) (resultText : string) :
  (length maxTemps <= i)%nat ->
  (length minTemps <= i)%nat ->
  (length precipitations <= i)%nat ->
  (length codes <= i)%nat ->
  daily_body rt times maxTemps minTemps precipitations codes bound i resultText
  = resultText ++ toLocaleDateString_ko rt (nth_error times i) ++ LF ++
    "  최고: " ++ "undefined" ++ "°C | 최저: " ++ "undefined" ++ "°C" ++ LF ++
    "  강수량: " ++ "undefined" ++ "mm" ++ LF ++
    "  날씨: " ++ "날씨 코드: " ++ "undefined" ++ LF ++
    (if Z.of_nat i <? bound - 1 then LF else "").
Proof.
  intros Hmax Hmin Hpre Hcode. unfold daily_body, index.
  rewrite (proj2 (nth_error_None maxTemps i) Hmax),
          (proj2 (nth_error_None minTemps i) Hmin),
          (proj2 (nth_error_None precipitations i) Hpre),
          (proj2 (nth_error_None codes i) Hcode).
  change (getWeatherDescription Undefined) with ("날씨 코드: " ++ "undefined").
  change (render Undefined) with "undefined".
  destruct (Z.of_nat i <? bound - 1);
    rewrite ?append_assoc, ?append_nil_r; reflexivity.
Qed.

Lemma daily_body_missing_samples_witness :
  daily_body (Example.runtime GeoNull) ["2025-12-15"] [] [] [] [] 1 0 ""
  = "" ++ "2025-12-15" ++ LF ++
    "  최고: " ++ "undefined" ++ "°C | 최저: " ++ "undefined" ++ "°C" ++ LF ++
    "  강수량: " ++ "undefined" ++ "mm" ++ LF ++
    "  날씨: " ++ "날씨 코드: " ++ "undefined" ++ LF ++ "".
Proof.
  apply (daily_body_missing_samples (Example.runtime GeoNull) ["2025-12-15"]
           [] [] [] [] 1 0 "");
    simpl; lia.
Defined.

(** X13. An integer condition code from 0 to 99 is looked up under its
    decimal string: each of the 28 codes the source describes (0, 1, 2, 3,
    45, 48, 51, 53, 55, 56, 57, 61, 63, 65, 66, 67, 71, 73, 75, 77, 80, 81,
    82, 85, 86, 95, 96, 99) gets the description written against its
    number, and each of the other 72 gets the fallback showing the code. *)
Theorem weather_code_descriptions (n : Z) :
  0 <= n <= 99 ->
  getWeatherDescription (Num (of_Z n))
  = match described n with
    | Some description => description
    | None => "날씨 코드: " ++ string_of_Z n
    end.
Proof.
  intros Hn.
  assert (String.eqb
            (getWeatherDescription (Num (of_Z n)))
            match described n with
            | Some description => description
            | None => "날씨 코드: " ++ string_of_Z n
            end = true) as Heq.
  { apply (forall_range
             (fun n => String.eqb
                         (getWeatherDescription (Num (of_Z n)))
                         match described n with
                         | Some description => description
                         | None => "날씨 코드: " ++ string_of_Z n
                         end) 0 100); [vm_compute; reflexivity | lia]. }
  now apply String.eqb_eq.
Qed.

Lemma weather_code_descriptions_witness :
  getWeatherDescription (Num (of_Z 95)) = "뇌우" /\
  getWeatherDescription (Num (of_Z 4)) = "날씨 코드: " ++ "4".
Proof.
  split.
  - apply (weather_code_descriptions 95). lia.
  - apply (weather_code_descriptions 4). lia.
Defined.

(** ** The image generator with a credential *)

(** X14. With a credential and a provider that answers, the image
    generator constructs one client with the credential, sends one request
    for the fixed model with five inference steps and a blob as output,
    and returns one PNG image item holding the base64 text of the bytes
    received. *)
Theorem generate_image_returns_png
    (rt : Runtime) (config : option Config) (prompt : string)
    (c : ascii) (s : string) (bytes : list Byte.byte) :
  credential config = Some (String c s) ->
  textToImage rt (String c s) prompt = Returned bytes ->
  call_tool rt config (GenerateImage prompt)
  = (Returned (image_result (base64 rt bytes) "image/png"),
     [NewInferenceClient (String c s);
      TextToImage "auto" "black-forest-labs/FLUX.1-schnell" prompt 5 "blob"]).
Proof.
  intros Htoken Himage. unfold_handlers. unfold credential in Htoken.
  rewrite Htoken. simpl. rewrite Himage. reflexivity.
Qed.

Lemma generate_image_returns_png_witness :
  call_tool (Scenario.runtime Scenario.unreachable Scenario.unreachable
               (Returned [Byte.x00; Byte.x01]))
    (Some {| HF_TOKEN := Some "hf_token" |}) (GenerateImage "a cat")
  = (Returned (image_result "AAAA" "image/png"),
     [NewInferenceClient "hf_token";
      TextToImage "auto" "black-forest-labs/FLUX.1-schnell" "a cat" 5 "blob"]).
Proof.
  apply (generate_image_returns_png
           (Scenario.runtime Scenario.unreachable Scenario.unreachable
              (Returned [Byte.x00; Byte.x01]))
           (Some {| HF_TOKEN := Some "hf_token" |}) "a cat" "h" "f_token"
           [Byte.x00; Byte.x01] eq_refl eq_refl).
Defined.

(** X15. When the provider throws, the image generator throws its
    operation followed by the provider's message, or by the unknown-error
    text when what was thrown is no [Error]; the client was constructed
    and the one request sent. *)
Theorem generate_image_provider_failure
    (rt : Runtime) (config : option Config) (prompt : string)
    (c : ascii) (s : string) (e : thrown) :
  credential config = Some (String c s) ->
  textToImage rt (String c s) prompt = Threw e ->
  call_tool rt config (GenerateImage prompt)
  = (Threw (JsError ("이미지 생성 실패: " ++ error_message e)),
     [NewInferenceClient (String c s);
      TextToImage "auto" "black-forest-labs/FLUX.1-schnell" prompt 5 "blob"]).
Proof.
  intros Htoken Himage. unfold_handlers. unfold credential in Htoken.
  rewrite Htoken. simpl. rewrite Himage. reflexivity.
Qed.

Lemma generate_image_provider_failure_witness :
  call_tool (Scenario.runtime Scenario.unreachable Scenario.unreachable
               (Threw (JsError "Model is overloaded")))
    (Some {| HF_TOKEN := Some "hf_token" |}) (GenerateImage "a cat")
  = (Threw (JsError ("이미지 생성 실패: " ++ "Model is overloaded")),
     [NewInferenceClient "hf_token";
      TextToImage "auto" "black-forest-labs/FLUX.1-schnell" "a cat" 5 "blob"]).
Proof.
  apply (generate_image_provider_failure
           (Scenario.runtime Scenario.unreachable Scenario.unreachable
              (Threw (JsError "Model is overloaded")))
           (Some {| HF_TOKEN := Some "hf_token" |}) "a cat" "h" "f_token"
           (JsError "Model is overloaded") eq_refl eq_refl).
Defined.

(** X16. A credential that is the empty string counts as none: the image
    generator throws the missing-credential error and makes no call. *)
Theorem generate_image_empty_credential
    (rt : Runtime) (config : option Config) (prompt : string) :
  credential config = Some "" ->
  call_tool rt config (GenerateImage prompt) = (Threw MissingCredentialError, []).
Proof.
  intros Htoken. unfold_handlers. unfold credential in Htoken.
  rewrite Htoken. reflexivity.
Qed.

Lemma generate_image_empty_credential_witness :
  call_tool (Example.runtime GeoNull) (Some {| HF_TOKEN := Some "" |})
    (GenerateImage "a cat")
  = (Threw MissingCredentialError, []).
Proof.
  apply (generate_image_empty_credential (Example.runtime GeoNull)
           (Some {| HF_TOKEN := Some "" |}) "a cat").
  reflexivity.
Defined.

(** ** The code-review prompt *)

Lemma template_split :
  split_first "{code}" CODE_REVIEW_TEMPLATE = Some template_parts.
Proof. vm_compute. reflexivity. Qed.

(** The template is its two parts around the placeholder, and neither
    part holds another placeholder. *)
Lemma template_has_one_placeholder :
  CODE_REVIEW_TEMPLATE = fst template_parts ++ "{code}" ++ snd template_parts /\
  includes "{code}" (fst template_parts) = false /\
  includes "{code}" (snd template_parts) = false.
Proof. repeat split; vm_compute; reflexivity. Qed.

Lemma replace_template (code : string) :
  replace CODE_REVIEW_TEMPLATE "{code}" code = review_request (inserted code).
Proof.
  unfold replace, review_request, inserted. rewrite template_split.
  destruct template_parts as [before after]. reflexivity.
Qed.

Lemma dollar_free_cons (c : ascii) (s : string) :
  dollar_free (String c s) -> Ascii.eqb c "$" = false /\ dollar_free s.
Proof.
  unfold dollar_free. cbn [includes]. intros H.
  apply orb_false_iff in H as [Hprefix Hrest]. split; [| exact Hrest].
  destruct (Ascii.eqb_spec c "$") as [-> | ne]; [| reflexivity].
  simpl in Hprefix. destruct s; discriminate Hprefix.
Qed.

Lemma get_substitution_free_app (matched before after a r : string) :
  dollar_free a ->
  get_substitution matched before after (a ++ r)
  = a ++ get_substitution matched before after r.
Proof.
  induction a as [| c a IH]; intros Hfree; [reflexivity |].
  apply dollar_free_cons in Hfree as [Hc Hfree].
  change (String c a ++ r) with (String c (a ++ r)).
  cbn [get_substitution]. rewrite Hc, (IH Hfree). reflexivity.
Qed.

Lemma get_substitution_free (matched before after a : string) :
  dollar_free a -> get_substitution matched before after a = a.
Proof.
  intros Hfree. rewrite <- (append_nil_r a) at 1.
  rewrite get_substitution_free_app by exact Hfree.
  cbn [get_substitution]. apply append_nil_r.
Qed.

Lemma languageGuidelines_nonempty (key value : string) :
  lookup key languageGuidelines = Some value -> exists c s, value = String c s.
Proof.
  unfold languageGuidelines. cbn [lookup]. intros H.
  repeat match type of H with
         | (if ?b then _ else _) = _ =>
             destruct b; [inversion H; eexists; eexists; reflexivity |]
         end.
  discriminate H.
Qed.

Lemma focusGuidelines_nonempty (key value : string) :
  lookup key focusGuidelines = Some value -> exists c s, value = String c s.
Proof.
  unfold focusGuidelines. cbn [lookup]. intros H.
  repeat match type of H with
         | (if ?b then _ else _) = _ =>
             destruct b; [inversion H; eexists; eexists; reflexivity |]
         end.
  discriminate H.
Qed.

Ltac unfold_prompt :=
  unfold run, code_review, ret, get, append_if_truthy, user_prompt.

(** X17. With no language, and a focus left out or unknown, a snippet
    without a dollar sign gives exactly the template with the snippet in
    the place of its placeholder: nothing is appended. *)
Theorem code_review_plain
    (prt : PromptRuntime) (code : string) (language focus : option string) :
  dollar_free code ->
  blank language ->
  blank focus \/ (exists f, focus = Some f /\ unknown prt focusGuidelines f) ->
  run (code_review prt code language focus)
  = (Returned (user_prompt (review_request code)), []).
Proof.
  intros Hfree Hlanguage Hfocus. unfold_prompt. rewrite replace_template.
  unfold inserted. rewrite (get_substitution_free _ _ _ code Hfree).
  destruct Hlanguage as [-> | ->];
    destruct Hfocus as [[-> | ->] | (f & -> & Hown & Hproto)];
    try reflexivity;
    destruct f; try reflexivity; rewrite Hown, Hproto; reflexivity.
Qed.

Lemma code_review_plain_witness :
  run (code_review Scenario.prompt_runtime "let x = {code}" (Some "") (Some "속도"))
  = (Returned (user_prompt (review_request "let x = {code}")), []).
Proof.
  apply (code_review_plain Scenario.prompt_runtime "let x = {code}" (Some "")
           (Some "속도")).
  - reflexivity.
  - right. reflexivity.
  - right. exists "속도". repeat split; reflexivity.
Defined.

(** X18. A language the runtime lowers to one of the four known ones and
    a focus that is one of the three known ones append, in this order,
    the checklist of the language, the checklist of the focus, and the
    note that names the language as it was given. *)
Theorem code_review_known_language_and_focus
    (prt : PromptRuntime) (code language focus : string)
    (language_checklist focus_checklist : string) :
  language <> "" ->
  lookup (toLowerCase prt language) languageGuidelines = Some language_checklist ->
  lookup focus focusGuidelines = Some focus_checklist ->
  run (code_review prt code (Some language) (Some focus))
  = (Returned
       (user_prompt
          (review_request (inserted code) ++ language_checklist ++ focus_checklist ++
           language_note language)),
     []).
Proof.
  intros Hne Hlanguage Hfocus. unfold_prompt. rewrite replace_template.
  destruct language as [| c s]; [now elim Hne |].
  destruct focus as [| d t]; [discriminate Hfocus |].
  rewrite Hlanguage, Hfocus.
  destruct (languageGuidelines_nonempty _ _ Hlanguage) as (c1 & s1 & ->).
  destruct (focusGuidelines_nonempty _ _ Hfocus) as (c2 & s2 & ->).
  unfold language_note. rewrite ?append_assoc. reflexivity.
Qed.

Lemma code_review_known_language_and_focus_witness :
  exists language_checklist focus_checklist,
    lookup "typescript" languageGuidelines = Some language_checklist /\
    lookup "보안" focusGuidelines = Some focus_checklist /\
    run (code_review Scenario.prompt_runtime "x" (Some "TypeScript") (Some "보안"))
    = (Returned
         (user_prompt
            (review_request "x" ++ language_checklist ++ focus_checklist ++
             language_note "TypeScript")),
       []).
Proof.
  eexists. eexists. split; [reflexivity |]. split; [reflexivity |].
  apply (code_review_known_language_and_focus Scenario.prompt_runtime "x"
           "TypeScript" "보안").
  - discriminate.
  - reflexivity.
  - reflexivity.
Defined.

(** X19. A language that is not known is not dropped altogether: no
    checklist is appended for it, but the closing note still names it. *)
Theorem code_review_unknown_language
    (prt : PromptRuntime) (code language : string) (focus : option string) :
  language <> "" ->
  unknown prt languageGuidelines (toLowerCase prt language) ->
  blank focus ->
  run (code_review prt code (Some language) focus)
  = (Returned (user_prompt (review_request (inserted code) ++ language_note language)),
     []).
Proof.
  intros Hne [Hown Hproto] Hfocus. unfold_prompt. rewrite replace_template.
  destruct language as [| c s]; [now elim Hne |].
  rewrite Hown, Hproto. unfold language_note.
  destruct Hfocus as [-> | ->]; rewrite ?append_assoc; reflexivity.
Qed.

Lemma code_review_unknown_language_witness :
  run (code_review Scenario.prompt_runtime "x" (Some "COBOL") None)
  = (Returned (user_prompt (review_request "x" ++ language_note "COBOL")), []).
Proof.
  apply (code_review_unknown_language Scenario.prompt_runtime "x" "COBOL" None).
  - discriminate.
  - split; reflexivity.
  - left. reflexivity.
Defined.

(** X20. A snippet is not always inserted as it is: in it, two dollar
    signs come out as one, a dollar sign and an ampersand as the
    placeholder itself, a dollar sign and a backtick as the part of the
    template before the placeholder, and a dollar sign and an apostrophe
    as the part after it. *)
Theorem code_review_dollar_patterns (prt : PromptRuntime) (a b : string) :
  dollar_free a ->
  dollar_free b ->
  run (code_review prt (a ++ "$$" ++ b) None None)
  = (Returned (user_prompt (review_request (a ++ "$" ++ b))), []) /\
  run (code_review prt (a ++ "$&" ++ b) None None)
  = (Returned (user_prompt (review_request (a ++ "{code}" ++ b))), []) /\
  run (code_review prt (a ++ "$`" ++ b) None None)
  = (Returned (user_prompt (review_request (a ++ fst template_parts ++ b))), []) /\
  run (code_review prt (a ++ "$'" ++ b) None None)
  = (Returned (user_prompt (review_request (a ++ snd template_parts ++ b))), []).
Proof.
  intros Ha Hb. unfold_prompt. rewrite !replace_template. unfold inserted.
  rewrite !(get_substitution_free_app _ _ _ a) by exact Ha.
  cbn [get_substitution append Ascii.eqb Bool.eqb].
  rewrite !(get_substitution_free _ _ _ b Hb).
  repeat split; reflexivity.
Qed.

Lemma code_review_dollar_patterns_witness :
  run (code_review Scenario.prompt_runtime ("price = " ++ "$$" ++ "5") None None)
  = (Returned (user_prompt (review_request ("price = " ++ "$" ++ "5"))), []) /\
  run (code_review Scenario.prompt_runtime ("s.replace(/x/, '" ++ "$&" ++ "')") None None)
  = (Returned (user_prompt (review_request ("s.replace(/x/, '" ++ "{code}" ++ "')"))), []).
Proof.
  split.
  - apply (code_review_dollar_patterns Scenario.prompt_runtime "price = " "5");
      reflexivity.
  - apply (code_review_dollar_patterns Scenario.prompt_runtime
             "s.replace(/x/, '" "')");
      reflexivity.
Defined.

(** X21. A focus that no checklist is kept for is not always ignored:
    when it names a member of [Object.prototype], the text of that member
    is appended to the prompt. *)
Theorem code_review_inherited_focus
    (prt : PromptRuntime) (code focus text : string) :
  focus <> "" ->
  lookup focus focusGuidelines = None ->
  Object_prototype prt focus = Some text ->
  run (code_review prt code None (Some focus))
  = (Returned (user_prompt (review_request (inserted code) ++ text)), []).
Proof.
  intros Hne Hown Hproto. unfold_prompt. rewrite replace_template.
  destruct focus as [| c s]; [now elim Hne |].
  rewrite Hown, Hproto. reflexivity.
Qed.

Lemma code_review_inherited_focus_witness :
  run (code_review Scenario.prompt_runtime "x" None (Some "toString"))
  = (Returned
       (user_prompt (review_request "x" ++ "function toString() { [native code] }")),
     []).
Proof.
  apply (code_review_inherited_focus Scenario.prompt_runtime "x" "toString"
           "function toString() { [native code] }").
  - discriminate.
  - reflexivity.
  - reflexivity.
Defined.
